(** * Hydro: file handlers of [packages/hydrooj/src/handler/misc.ts]

    A shallow embedding of [FilesHandler], [FSDownloadHandler] and
    [StorageHandler], and the properties of the signed-link check, the
    upload quota, the upload/delete ledger and the download authorisation.

    Conventions of the embedding.
    - A JavaScript number that holds an integer (sizes, ids, limits,
      timestamps) is a [Z]; a parameter declared [Types.UnsignedInt] is
      an [N].  Template-string interpolation of such a number is stdpp's
      decimal [pretty], which is what JavaScript prints below 1e21.
    - A value that may be [undefined] or [null] is an [option].
    - A handler is a computation in the monad [M]: it reads and updates
      the handler context (the [this] object, the identity store, the
      storage collaborator and the operation log) and either returns or
      throws an [Error].  The context reached by a throw is kept, so that
      what a failed request has already done stays visible. *)

From stdpp Require Import gmap strings list pretty.

Open Scope string_scope.
Open Scope Z_scope.
Open Scope list_scope.

(** ** Values *)

(** The privileges of [PRIV] (model/builtin) that this file uses. *)
Inductive PRIV : Type :=
  | PRIV_USER_PROFILE
  | PRIV_CREATE_FILE
  | PRIV_UNLIMITED_QUOTA
  | PRIV_EDIT_SYSTEM.

(** The error classes imported from [../error], the [PrivilegeError] that
    [checkPriv] raises, the [TypeError] of a property read on [undefined],
    the plain [Error] of line 75, and a rejection that comes from a
    collaborator (storage engine, file system). *)
Inductive Error : Type :=
  | BadRequestError (msg : string)
  | ForbiddenError (msg : string)
  | NotFoundError (uid : Z)
  | ValidationError (field : string) (msg : option string)
  | PrivilegeError (p : PRIV)
  | TypeError
  | PlainError (msg : string)
  | CollaboratorError (msg : string).

Inductive Res (A : Type) : Type :=
  | Ok (a : A)
  | Throw (e : Error).
Arguments Ok {A} a.
Arguments Throw {A} e.

(** What [storage.getMeta] returns for an object that exists. *)
Module Meta.
Record t : Type := mk {
  size : Z;
  lastModified : Z;
  etag : string;
}.
End Meta.

(** An entry of a principal's [_files]. *)
Module FileRecord.
Record t : Type := mk {
  _id : string;
  name : string;
  size : Z;
  lastModified : Z;
  etag : string;
}.
End FileRecord.

(** A principal, as the handlers see it: [this.user] and the result of
    [user.getById]. *)
Module User.
Record t : Type := mk {
  _id : Z;
  hasPriv : PRIV → bool;
  _files : option (list FileRecord.t);
}.
Definition with_files (u : t) (fs : list FileRecord.t) : t :=
  mk (_id u) (hasPriv u) (Some fs).
End User.

(** [request.files.file]: the temporary local copy of an uploaded object. *)
Module File.
Record t : Type := mk {
  filepath : string;
  originalFilename : option string;
}.
End File.

Inductive Redirect : Type :=
  | RedirectBack
  | RedirectTo (url : string).

Inductive Body : Type :=
  | BodyNone
  | BodyFiles (files : list FileRecord.t) (urlForFile : string → string)
  | BodyFragments (html : list string)
  | BodyBytes (content : string).

Module Response.
Record t : Type := mk {
  body : Body;
  template : option string;
  type : option string;
  disposition : option string;
  redirect : option Redirect;
  headers : list (string * string);
}.
Definition empty : t := mk BodyNone None None None None [].
Definition set_body (b : Body) (r : t) : t :=
  mk b (template r) (type r) (disposition r) (redirect r) (headers r).
Definition set_template (x : string) (r : t) : t :=
  mk (body r) (Some x) (type r) (disposition r) (redirect r) (headers r).
Definition set_type (x : string) (r : t) : t :=
  mk (body r) (template r) (Some x) (disposition r) (redirect r) (headers r).
Definition set_disposition (x : string) (r : t) : t :=
  mk (body r) (template r) (type r) (Some x) (redirect r) (headers r).
Definition set_redirect (x : Redirect) (r : t) : t :=
  mk (body r) (template r) (type r) (disposition r) (Some x) (headers r).
Definition addHeader (k v : string) (r : t) : t :=
  mk (body r) (template r) (type r) (disposition r) (redirect r) (headers r ++ [(k, v)]).
End Response.

(** An entry of the operation log written by [oplog.log]. *)
Module LogEntry.
Record t : Type := mk {
  type : string;
  target : string;
  size : Z;
}.
End LogEntry.

(** ** Strings *)

(** [s.includes(needle)] *)
Fixpoint includes (needle s : string) : bool :=
  String.prefix needle s ||
  match s with
  | EmptyString => false
  | String _ s' => includes needle s'
  end.

(** [s.endsWith(suffix)] *)
Definition endsWith (s suffix : string) : bool :=
  (String.length suffix <=? String.length s)%nat &&
  String.eqb
    (String.substring (String.length s - String.length suffix) (String.length suffix) s)
    suffix.

(** The truth value of a string: the empty string is falsy. *)
Definition truthy (s : string) : bool :=
  match s with
  | EmptyString => false
  | String _ _ => true
  end.

(** The double quote character, for the content-disposition header. *)
Definition dquote : string := String (Ascii.ascii_of_nat 34) EmptyString.

(** [a || b] on an optional string: [a] unless it is absent or empty. *)
Definition or_else (a : option string) (b : string) : string :=
  match a with
  | Some s => if truthy s then s else b
  | None => b
  end.


(** ** Collaborators

    The handlers call into modules that are not part of this file.  Their
    operations are the fields of two interfaces; the handlers and their
    properties are stated for every implementation. *)

(** Pure helpers and configuration. *)
Class Env : Type := {
  (** [md5] of [../utils] *)
  md5 : string → string;
  (** [sortFiles] of [../utils] *)
  sortFiles : option (list FileRecord.t) → list FileRecord.t;
  (** [lookup] of [mime-types]: a content type, or [false] *)
  lookup : string → option string;
  (** [encodeRFC5987ValueChars] of [../service/storage] *)
  encodeRFC5987ValueChars : string → string;
  (** [builtinConfig.file.secret] *)
  file_secret : string;
  (** [system.get] on the numeric settings *)
  system_get : string → Z;
  (** [statSync(path).size]; the call throws when the path is missing *)
  statSync : string → Res Z;
  (** [this.url('fs_download', { uid, filename })] *)
  url_fs_download : Z → string → string;
  (** [this.renderHTML] *)
  renderHTML : string → Body → string;
}.

(** The storage engine behind [../model/storage], over its own state [S].
    [put] and [del] may reject; [getMeta] answers [null] for an object it
    does not know. *)
Class Storage (S : Type) : Type := {
  storage_put : string → string → Z → S → Res () * S;
  storage_get : string → S → Res string;
  storage_getMeta : string → S → option Meta.t;
  storage_del : list string → Z → S → Res () * S;
  storage_signDownloadLink : string → option string → bool → string → S → string;
}.

(** ** The handler context

    [user], [request_file] and [response] are the fields of [this] that
    the handlers touch; [users] is the identity store behind
    [user.getById] and [user.setById]; [store] is the storage engine's
    state and [oplog] the operation log. *)
Record Ctx (S : Type) : Type := mkCtx {
  user : User.t;
  request_file : option File.t;
  response : Response.t;
  users : gmap Z User.t;
  store : S;
  oplog : list LogEntry.t;
}.
Arguments mkCtx {S}.
Arguments user {S}.
Arguments request_file {S}.
Arguments response {S}.
Arguments users {S}.
Arguments store {S}.
Arguments oplog {S}.

(** ** The handler monad *)

Definition M (S A : Type) : Type := Ctx S → Res A * Ctx S.

Definition ret {S A} (a : A) : M S A := λ c, (Ok a, c).

Definition throw {S A} (e : Error) : M S A := λ c, (Throw e, c).

Definition bind {S A B} (m : M S A) (k : A → M S B) : M S B :=
  λ c, match m c with
       | (Ok a, c') => k a c'
       | (Throw e, c') => (Throw e, c')
       end.

Definition gets {S A} (f : Ctx S → A) : M S A := λ c, (Ok (f c), c).

Definition modify {S} (f : Ctx S → Ctx S) : M S () := λ c, (Ok (), f c).

(** [if (b) throw e] *)
Definition throw_if {S} (b : bool) (e : Error) : M S () :=
  if b then throw e else ret ().

(** A value that the code dereferences: [undefined] raises a [TypeError]. *)
Definition deref {S A} (o : option A) : M S A :=
  match o with
  | Some a => ret a
  | None => throw TypeError
  end.

(** An awaited pure call that may reject. *)
Definition lift {S A} (r : Res A) : M S A := λ c, (r, c).

(** The monad is used through stdpp's [x ← m; k] and [m;; k]. *)
#[global] Instance M_ret {S} : MRet (M S) := λ A, ret.
#[global] Instance M_bind {S} : MBind (M S) := λ A B k m, bind m k.

(** Updates of single fields of the context. *)
Definition set_user {S} (u : User.t) (c : Ctx S) : Ctx S :=
  mkCtx u (request_file c) (response c) (users c) (store c) (oplog c).
Definition set_response {S} (r : Response.t) (c : Ctx S) : Ctx S :=
  mkCtx (user c) (request_file c) r (users c) (store c) (oplog c).
Definition set_users {S} (us : gmap Z User.t) (c : Ctx S) : Ctx S :=
  mkCtx (user c) (request_file c) (response c) us (store c) (oplog c).
Definition set_store {S} (s : S) (c : Ctx S) : Ctx S :=
  mkCtx (user c) (request_file c) (response c) (users c) s (oplog c).
Definition set_oplog {S} (l : list LogEntry.t) (c : Ctx S) : Ctx S :=
  mkCtx (user c) (request_file c) (response c) (users c) (store c) l.

(** ** Calls into the collaborators *)

Section Handlers.
Context {env : Env} {S : Type} {storage : Storage S}.

(** Modelled from the spec: [Handler.checkPriv] (service/server) is not in
    this file; "Require the privilege; fail with a permission error
    otherwise." *)
Definition checkPriv (p : PRIV) : M S () :=
  u ← gets user;
  throw_if (negb (User.hasPriv u p)) (PrivilegeError p).

(** Modelled from the spec: [Handler.back] (service/server) is not in this
    file; it sends the client back to the page it came from. *)
Definition back : M S () :=
  modify (λ c, set_response (Response.set_redirect RedirectBack (response c)) c).

(** Modelled from the spec: [Math.sum] is an extension installed by
    [../utils], not in this file; "sum over existing sizes". *)
Definition Math_sum (l : list Z) : Z := foldl Z.add 0 l.

(** Modelled from the spec: [user.getById] (model/user) is not in this
    file; "getById(realm, id) -> Principal | null". *)
Definition user_getById (uid : Z) : M S (option User.t) :=
  gets (λ c, users c !! uid).

(** Modelled from the spec: [user.setById] (model/user) is not in this
    file; "setById(id, partialUpdate) -> void (whole-field overwrite
    semantics for _files)". *)
Definition user_setById_files (uid : Z) (fs : list FileRecord.t) : M S () :=
  modify (λ c, set_users (alter (λ u, User.with_files u fs) uid (users c)) c).

Definition storage_put_ (path filepath : string) (owner : Z) : M S () :=
  λ c, let '(r, s) := storage_put path filepath owner (store c) in (r, set_store s c).

Definition storage_getMeta_ (path : string) : M S (option Meta.t) :=
  gets (λ c, storage_getMeta path (store c)).

Definition storage_get_ (path : string) : M S string :=
  λ c, (storage_get path (store c), c).

Definition storage_signDownloadLink_
    (path : string) (filename : option string) (forceDownload : bool)
    (namespace : string) : M S string :=
  gets (λ c, storage_signDownloadLink path filename forceDownload namespace (store c)).

(** Modelled from the spec: [oplog.log] (model/oplog) is not in this
    file; it records an audit event. *)
Definition oplog_log (type target : string) (size : Z) : M S () :=
  modify (λ c, set_oplog (oplog c ++ [LogEntry.mk type target size]) c).

(** [storage.del(...)] as called inside [Promise.all([...])]: the call is
    issued, and its outcome is the promise that [Promise.all] later joins. *)
Definition storage_del_call (paths : list string) (owner : Z) : M S (Res ()) :=
  λ c, let '(r, s) := storage_del paths owner (store c) in (Ok r, set_store s c).

Definition update_response (f : Response.t → Response.t) : M S () :=
  modify (λ c, set_response (f (response c)) c).

(** ** FilesHandler *)

(** [fs?.length] *)
Definition optional_length (fs : option (list FileRecord.t)) : option Z :=
  (λ l, Z.of_nat (length l)) <$> fs.

(** [!n] on an optional number: [undefined] and [0] are falsy. *)
Definition falsy_num (n : option Z) : bool :=
  match n with
  | Some k => bool_decide (k = 0)
  | None => true
  end.

(** [n || d] on an optional number. *)
Definition num_or (n : option Z) (d : Z) : Z :=
  if falsy_num n then d else default d n.

(** The storage path [`user/${uid}/${filename}`]. *)
Definition user_path (uid : Z) (filename : string) : string :=
  "user/" +:+ pretty uid +:+ "/" +:+ filename.

(** [FilesHandler.get], lines 37-54. *)
Definition FilesHandler_get (pjax : bool) : M S () :=
  u ← gets user;
  (if falsy_num (optional_length (User._files u))
   then checkPriv PRIV_CREATE_FILE else mret ());;
  let body := BodyFiles (sortFiles (User._files u)) (url_fs_download (User._id u)) in
  if pjax then
    update_response
      (Response.set_body (BodyFragments [renderHTML "partials/files.html" body]));;
    update_response (Response.set_template EmptyString)
  else
    update_response (Response.set_template "home_files.html");;
    update_response (Response.set_body body).

(** The name under which an upload is stored, line 69: the [filename]
    parameter, else the original name of the uploaded object, else the
    16 random characters [rnd] that [String.random(16)] returns. *)
Definition upload_name (filename : option string) (file : File.t) (rnd : string) : string :=
  or_else filename (or_else (File.originalFilename file) rnd).

(** The record that line 74 and line 76 build from the metadata. *)
Definition new_record (filename : string) (meta : Meta.t) : FileRecord.t :=
  FileRecord.mk filename filename (Meta.size meta) (Meta.lastModified meta) (Meta.etag meta).

(** [FilesHandler.postUploadFile], lines 57-79. *)
Definition postUploadFile (filename : option string) (rnd : string) : M S () :=
  checkPriv PRIV_CREATE_FILE;;
  u ← gets user;
  (if bool_decide (system_get "limit.user_files" ≤ num_or (optional_length (User._files u)) 0)%Z
   then throw_if (negb (User.hasPriv u PRIV_UNLIMITED_QUOTA))
          (ForbiddenError "File limit exceeded.")
   else mret ());;
  ofile ← gets request_file;
  throw_if (bool_decide (ofile = None)) (ValidationError "file" None);;
  file ← deref ofile;
  fsize ← lift (statSync (File.filepath file));
  let size := Math_sum (FileRecord.size <$> default [] (User._files u)) + fsize in
  (if bool_decide (system_get "limit.user_files_size" ≤ size)%Z
   then throw_if (negb (User.hasPriv u PRIV_UNLIMITED_QUOTA))
          (ForbiddenError "File size limit exceeded.")
   else mret ());;
  let filename := upload_name filename file rnd in
  throw_if (includes "/" filename || includes ".." filename)
    (ValidationError "filename" (Some "Bad filename"));;
  files ← deref (User._files u);
  throw_if (bool_decide (length (filter (λ i, FileRecord.name i = filename) files) ≠ 0%nat))
    (BadRequestError "file exists");;
  storage_put_ (user_path (User._id u) filename) (File.filepath file) (User._id u);;
  meta ← storage_getMeta_ (user_path (User._id u) filename);
  throw_if (bool_decide (meta = None)) (PlainError "Upload failed");;
  meta ← deref meta;
  modify (set_user (User.with_files u (files ++ [new_record filename meta])));;
  u' ← gets user;
  files' ← deref (User._files u');
  user_setById_files (User._id u') files';;
  back.

(** [FilesHandler.postDeleteFiles], lines 82-88.  The two elements of the
    array given to [Promise.all] are evaluated in order: [storage.del] is
    issued, then the filtered list is computed and [user.setById] is
    issued; [Promise.all] rejects when [storage.del] rejected. *)
Definition postDeleteFiles (files : list string) : M S () :=
  u ← gets user;
  deleted ← storage_del_call ((λ t, user_path (User._id u) t) <$> files) (User._id u);
  own ← deref (User._files u);
  user_setById_files (User._id u) (filter (λ i, FileRecord.name i ∉ files) own);;
  lift deleted;;
  back.

(** ** FSDownloadHandler *)

(** [FSDownloadHandler.get], lines 97-111. *)
Definition FSDownloadHandler_get (uid : Z) (filename : string) (noDisposition : bool) : M S () :=
  targetUser ← user_getById uid;
  throw_if (bool_decide (targetUser = None)) (NotFoundError uid);;
  targetUser ← deref targetUser;
  u ← gets user;
  throw_if (bool_decide (User._id u ≠ uid) && negb (User.hasPriv targetUser PRIV_CREATE_FILE))
    (ForbiddenError "Access denied");;
  update_response (Response.addHeader "Cache-Control" "public");;
  let target := user_path uid filename in
  file ← storage_getMeta_ target;
  oplog_log "download.file.user" target (default 0 (Meta.size <$> file));;
  link ← storage_signDownloadLink_ target
            (if noDisposition then None else Some filename) false "user";
  update_response (Response.set_redirect (RedirectTo link)).

(** ** StorageHandler *)

(** The value that line 122 computes: the keyed hash of
    [target/expire/secret]. *)
Definition expected (target : string) (expire : N) : string :=
  md5 (target +:+ "/" +:+ pretty expire +:+ "/" +:+ file_secret).

(** Lines 125-129: the response to a link that passed both checks. *)
Definition StorageHandler_serve (target filename : string) : M S () :=
  content ← storage_get_ target;
  update_response (Response.set_body (BodyBytes content));;
  update_response (Response.set_type
    (if endsWith target ".out" || endsWith target ".ans"
     then "text/plain"
     else or_else (lookup target) "application/octet-stream"));;
  if truthy filename then
    update_response (Response.set_disposition
      ("attachment; filename=" +:+ dquote +:+ encodeRFC5987ValueChars filename +:+ dquote))
  else mret ().

(** [StorageHandler.get], lines 121-130; [now] is the value of
    [Date.now()]. *)
Definition StorageHandler_get
    (now : Z) (target filename : string) (expire : N) (secret : string) : M S () :=
  let expected := expected target expire in
  throw_if (bool_decide (Z.of_N expire < now)%Z) (ForbiddenError "Link expired");;
  throw_if (bool_decide (secret ≠ expected)) (ForbiddenError "Invalid secret");;
  StorageHandler_serve target filename.

(** ** The outcome of a request

    The handlers again, as the decision they take: one branch for each
    check, in the order of the code, with the context in which the
    request ends.  [postUploadFile_outcome] and [postDeleteFiles_outcome]
    below show that the handlers compute exactly this. *)

(** The number of files that line 59 compares with the limit. *)
Definition file_count (u : User.t) : Z :=
  num_or (optional_length (User._files u)) 0.

(** The aggregate size that line 65 adds the new object's size to. *)
Definition used_bytes (u : User.t) : Z :=
  Math_sum (FileRecord.size <$> default [] (User._files u)).

(** The context in which a successful upload of [name] ends: the record
    is appended to [this.user._files], the identity store holds the new
    list, the storage engine is in the state [s] reached by the write,
    and the client is sent back. *)
Definition uploaded
    (c : Ctx S) (files : list FileRecord.t) (name : string) (meta : Meta.t) (s : S)
    : Ctx S :=
  let files' := (files ++ [new_record name meta])%list in
  mkCtx (User.with_files (user c) files') (request_file c)
    (Response.set_redirect RedirectBack (response c))
    (alter (λ u, User.with_files u files') (User._id (user c)) (users c))
    s (oplog c).

(** The decision tree of [postUploadFile]: the outcome of each check in
    the order of the code, and the context in which the request ends. *)
Definition upload_outcome (filename : option string) (rnd : string) (c : Ctx S)
    : Res () * Ctx S :=
  let u := user c in
  if negb (User.hasPriv u PRIV_CREATE_FILE)
  then (Throw (PrivilegeError PRIV_CREATE_FILE), c)
  else if bool_decide (system_get "limit.user_files" ≤ file_count u)%Z
          && negb (User.hasPriv u PRIV_UNLIMITED_QUOTA)
  then (Throw (ForbiddenError "File limit exceeded."), c)
  else match request_file c with
  | None => (Throw (ValidationError "file" None), c)
  | Some file =>
  match statSync (File.filepath file) with
  | Throw e => (Throw e, c)
  | Ok fsize =>
  if bool_decide (system_get "limit.user_files_size" ≤ used_bytes u + fsize)%Z
     && negb (User.hasPriv u PRIV_UNLIMITED_QUOTA)
  then (Throw (ForbiddenError "File size limit exceeded."), c)
  else
  let name := upload_name filename file rnd in
  if includes "/" name || includes ".." name
  then (Throw (ValidationError "filename" (Some "Bad filename")), c)
  else match User._files u with
  | None => (Throw TypeError, c)
  | Some files =>
  if bool_decide (length (filter (λ i, FileRecord.name i = name) files) ≠ 0%nat)
  then (Throw (BadRequestError "file exists"), c)
  else
  match storage_put (user_path (User._id u) name) (File.filepath file) (User._id u)
          (store c) with
  | (Throw e, s') => (Throw e, set_store s' c)
  | (Ok _, s') =>
  match storage_getMeta (user_path (User._id u) name) s' with
  | None => (Throw (PlainError "Upload failed"), set_store s' c)
  | Some meta => (Ok (), uploaded c files name meta s')
  end end end end end.

(** The storage paths that a delete request names. *)
Definition delete_paths (uid : Z) (files : list string) : list string :=
  (λ t, user_path uid t) <$> files.

(** The records that a delete request of [files] keeps. *)
Definition kept (files : list string) (own : list FileRecord.t) : list FileRecord.t :=
  filter (λ i, FileRecord.name i ∉ files) own.

(** The decision tree of [postDeleteFiles]. *)
Definition delete_outcome (files : list string) (c : Ctx S) : Res () * Ctx S :=
  let u := user c in
  let '(deleted, s') :=
    storage_del (delete_paths (User._id u) files) (User._id u) (store c) in
  match User._files u with
  | None => (Throw TypeError, set_store s' c)
  | Some own =>
      let c' :=
        set_users (alter (λ v, User.with_files v (kept files own)) (User._id u) (users c))
          (set_store s' c) in
      match deleted with
      | Ok _ => (Ok (), set_response (Response.set_redirect RedirectBack (response c)) c')
      | Throw e => (Throw e, c')
      end
  end.

End Handlers.

(** The file list that the identity store holds for [uid]. *)
Definition ledger {S} (uid : Z) (c : Ctx S) : option (list FileRecord.t) :=
  users c !! uid ≫= User._files.

(** ** Sample collaborators

    A configuration and two storage engines on which the handlers run
    inside Rocq: an in-memory engine that keeps the metadata of every
    object put, and an engine that accepts every write and knows no
    object afterwards. *)

(** Limits [limit_files] and [limit_size]; every uploaded temporary file
    has [fsize] bytes; the digest is a tagged copy of its input. *)
Definition sample_env (limit_files limit_size fsize : Z) : Env := {|
  md5 := λ s, "md5:" +:+ s;
  sortFiles := default [];
  lookup := λ _, None;
  encodeRFC5987ValueChars := λ s, s;
  file_secret := "server-secret";
  system_get := λ key,
    if String.eqb key "limit.user_files" then limit_files
    else if String.eqb key "limit.user_files_size" then limit_size
    else 0;
  statSync := λ _, Ok fsize;
  url_fs_download := λ uid filename, "/file/" +:+ pretty uid +:+ "/" +:+ filename;
  renderHTML := λ template _, template;
|}.

(** Objects by path; [put] records [fsize] bytes under the path. *)
Definition memory_storage (fsize : Z) : Storage (gmap string Meta.t) := {|
  storage_put := λ path _ _ s, (Ok (), <[path := Meta.mk fsize 0 "etag"]> s);
  storage_get := λ path s,
    match s !! path with
    | Some _ => Ok path
    | None => Throw (CollaboratorError "no such object")
    end;
  storage_getMeta := λ path s, s !! path;
  storage_del := λ paths _ s, (Ok (), foldr delete s paths);
  storage_signDownloadLink := λ target _ _ _ _, "/storage?target=" +:+ target;
|}.

(** An engine that loses what it is given, and rejects deletions. *)
Definition lossy_storage : Storage () := {|
  storage_put := λ _ _ _ s, (Ok (), s);
  storage_get := λ _ _, Throw (CollaboratorError "no such object");
  storage_getMeta := λ _ _, None;
  storage_del := λ _ _ s, (Throw (CollaboratorError "delete failed"), s);
  storage_signDownloadLink := λ target _ _ _ _, target;
|}.

(** Principals: full privileges, file creation only, none. *)
Definition priv_all : PRIV → bool := λ _, true.
Definition priv_create : PRIV → bool := λ p,
  match p with
  | PRIV_CREATE_FILE => true
  | _ => false
  end.
Definition priv_none : PRIV → bool := λ _, false.

Definition sample_record (name : string) (size : Z) : FileRecord.t :=
  FileRecord.mk name name size 0 "etag".

Definition sample_file (original : string) : File.t :=
  File.mk "/tmp/upload" (Some original).

(** The context of a request by principal [u], who is stored in the
    identity store, with the optional upload [file]. *)
Definition sample_ctx {S} (u : User.t) (file : option File.t) (s : S) : Ctx S :=
  mkCtx u file Response.empty {[ User._id u := u ]} s [].

(** Principal 7, with file creation only, owning [files]. *)
Definition P1 (files : list FileRecord.t) : User.t :=
  User.mk 7 priv_create (Some files).

(** A value of [String.random(16)]. *)
Definition rnd16 : string := "0123456789abcdef".

(** An upload request of [P1 files] on the in-memory engine. *)
Definition upload_ctx (files : list FileRecord.t) (original : string)
    : Ctx (gmap string Meta.t) :=
  sample_ctx (P1 files) (Some (sample_file original)) ∅.

(** A request of [P1 files] on the engine that loses its objects. *)
Definition lossy_ctx (files : list FileRecord.t) : Ctx () :=
  sample_ctx (P1 files) (Some (sample_file "a.txt")) ().

(** A request for a signed link, with the object in the store. *)
Definition link_ctx : Ctx (gmap string Meta.t) :=
  sample_ctx (P1 []) None {[ "user/7/a.txt" := Meta.mk 1 0 "etag" ]}.

(** ** Names, payloads and sessions *)

(** The names of the records of a file list. *)
Definition names (files : list FileRecord.t) : list string :=
  FileRecord.name <$> files.

(** A name that line 70 lets through. *)
Definition safe_name (name : string) : Prop :=
  includes "/" name = false ∧ includes ".." name = false.

(** The characters of a string. *)
Definition chars (s : string) : list Ascii.ascii := String.list_ascii_of_string s.

(** The slash character. *)
Definition slash : Ascii.ascii := Ascii.ascii_of_nat 47.

(** The string that line 122 hashes. *)
Definition link_payload {env : Env} (target : string) (expire : N) : string :=
  target +:+ "/" +:+ pretty expire +:+ "/" +:+ file_secret.

(** [this.session], as far as this file writes it. *)
Module Session.
Record t : Type := mk {
  uid : option Z;
  viewLang : option string;
}.
End Session.

(** The context of the two session handlers: [this.user], [this.session],
    [this.response], and the [viewLang] field of the principals in the
    identity store (a key for every stored principal). *)
Record SessionCtx : Type := mkSessionCtx {
  session_user : User.t;
  session : Session.t;
  session_response : Response.t;
  viewLangs : gmap Z (option string);
}.

(** Modelled from the spec: [user.setById] (model/user) is not in this
    file; "setById(id, partialUpdate) -> void", here with the partial
    update [{ viewLang: lang }]. *)
Definition user_setById_viewLang (uid : Z) (lang : string) (c : SessionCtx) : SessionCtx :=
  mkSessionCtx (session_user c) (session c) (session_response c)
    (alter (λ _, Some lang) uid (viewLangs c)).

Definition set_session_viewLang (lang : string) (c : SessionCtx) : SessionCtx :=
  mkSessionCtx (session_user c)
    (Session.mk (Session.uid (session c)) (Some lang))
    (session_response c) (viewLangs c).

Definition set_session_uid (uid : Z) (c : SessionCtx) : SessionCtx :=
  mkSessionCtx (session_user c)
    (Session.mk (Some uid) (Session.viewLang (session c)))
    (session_response c) (viewLangs c).

(** [this.back()] in a session handler. *)
Definition session_back (c : SessionCtx) : SessionCtx :=
  mkSessionCtx (session_user c) (session c)
    (Response.set_redirect RedirectBack (session_response c)) (viewLangs c).

(** [SwitchLanguageHandler.get], lines 24-30. *)
Definition SwitchLanguageHandler_get (lang : string) (c : SessionCtx) : SessionCtx :=
  let c :=
    if User.hasPriv (session_user c) PRIV_USER_PROFILE
    then user_setById_viewLang (User._id (session_user c)) lang
           (set_session_viewLang lang c)
    else set_session_viewLang lang c in
  session_back c.

(** [SwitchAccountHandler.get], lines 135-138. *)
Definition SwitchAccountHandler_get (uid : Z) (c : SessionCtx) : SessionCtx :=
  session_back (set_session_uid uid c).

(** A request of principal 7 whose session list is stale: the identity
    store holds [stored], the session still has [seen]. *)
Definition stale_ctx (seen stored : list FileRecord.t) : Ctx (gmap string Meta.t) :=
  mkCtx (P1 seen) (Some (sample_file "c.txt")) Response.empty
    {[ 7 := P1 stored; 8 := User.mk 8 priv_create (Some [sample_record "x.txt" 1]) ]}
    ∅ [].

(** Principal 9, with every privilege, owning [files]. *)
Definition P9 (files : option (list FileRecord.t)) : User.t :=
  User.mk 9 priv_all files.

(** A session of principal [u], stored with the language [en]. *)
Definition session_ctx (u : User.t) : SessionCtx :=
  mkSessionCtx u (Session.mk (Some (User._id u)) None) Response.empty
    {[ User._id u := Some "en" ]}.

(** An upload request of [P9 files] on the in-memory engine, which holds
    one object of principal 9. *)
Definition P9_ctx (files : option (list FileRecord.t)) : Ctx (gmap string Meta.t) :=
  sample_ctx (P9 files) (Some (sample_file "d.txt"))
    {[ "user/9/a.txt" := Meta.mk 1 0 "etag" ]}.

(** * Properties *)

(** ** Strings *)

Lemma app_String (a : Ascii.ascii) (s t : string) :
  String a s +:+ t = String a (s +:+ t).
Proof. reflexivity. Qed.

Lemma app_EmptyString (t : string) : EmptyString +:+ t = t.
Proof. reflexivity. Qed.





Lemma or_else_truthy (a : option string) (b : string) :
  truthy b = true → truthy (or_else a b) = true.
Proof.
  intros Hb. unfold or_else. destruct a as [s|]; [|done].
  by destruct (truthy s) eqn:Hs.
Qed.

(** ** Running the monad *)

Section Properties.
Context {env : Env} {S : Type} {storage : Storage S}.
Implicit Types (c : Ctx S) (u : User.t).

Lemma run_bind {A B} (m : M S A) (k : A → M S B) c :
  (m ≫= k) c =
  match m c with
  | (Ok a, c') => k a c'
  | (Throw e, c') => (Throw e, c')
  end.
Proof. reflexivity. Qed.

Lemma checkPriv_run p c :
  checkPriv p c =
  if negb (User.hasPriv (user c) p) then (Throw (PrivilegeError p), c) else (Ok (), c).
Proof. unfold checkPriv. rewrite run_bind. simpl. by destruct (User.hasPriv _ _). Qed.

Lemma throw_if_run (b : bool) e c :
  throw_if b e c = if b then (Throw e, c) else (Ok (), c).
Proof. by destruct b. Qed.

Lemma gets_run {A} (f : Ctx S → A) c : gets f c = (Ok (f c), c).
Proof. reflexivity. Qed.

Lemma deref_run {A} (o : option A) c :
  deref o c = match o with Some a => (Ok a, c) | None => (Throw TypeError, c) end.
Proof. by destruct o. Qed.

Lemma lift_run {A} (r : Res A) c : lift r c = (r, c).
Proof. reflexivity. Qed.

(** The shape of both quota checks: [if (over) { if (!unlimited) throw e }]. *)
Lemma quota_check_run (over unlimited : bool) e c :
  (if over then throw_if (negb unlimited) e else mret ()) c =
  if over && negb unlimited then (Throw e, c) else (Ok (), c).
Proof. by destruct over, unlimited. Qed.

Ltac run :=
  unfold mbind, M_bind, bind, mret, M_ret, ret, gets, modify, throw_if, throw,
    deref, lift, update_response.

(** [next lem]: rewrite the first call of the computation in the goal
    with its outcome [lem]. *)
Ltac next lem := rewrite run_bind, lem; cbv beta iota.

(** ** The signed link *)

(** C1. The fingerprint of a link is the keyed hash
    [md5 (target/expire/secret)].  A request that presents it passes the
    fingerprint check: unless the link has expired, the handler goes on
    to serve the object.  A request that presents any other string for
    the same target and expiry is rejected with a [ForbiddenError]. *)
Theorem link_fingerprint_check now target filename expire c :
  let fingerprint := md5 (target +:+ "/" +:+ pretty expire +:+ "/" +:+ file_secret) in
  StorageHandler_get now target filename expire fingerprint c =
    (if bool_decide (Z.of_N expire < now)%Z
     then (Throw (ForbiddenError "Link expired"), c)
     else StorageHandler_serve target filename c)
  ∧ ∀ secret, secret ≠ fingerprint →
      StorageHandler_get now target filename expire secret c =
        (Throw (ForbiddenError
           (if bool_decide (Z.of_N expire < now)%Z
            then "Link expired" else "Invalid secret")), c).
Proof.
  intros fingerprint. unfold StorageHandler_get. split.
  - run. case_bool_decide; [done|]. simpl.
    rewrite bool_decide_eq_false_2; [done|].
    intros Hne. by apply Hne.
  - intros secret Hne. run. case_bool_decide; [done|]. simpl.
    rewrite bool_decide_eq_true_2; [done|].
    intros Heq. by apply Hne.
Qed.

(** C2. A link whose expiry is before the current time is rejected,
    whatever fingerprint it presents and so also with the right one: the
    expiry is checked first.  An unexpired link with a wrong fingerprint
    is rejected too, and both rejections are a [ForbiddenError]. *)
Theorem expired_link_rejected now target filename expire secret c :
  ((Z.of_N expire < now)%Z →
     StorageHandler_get now target filename expire (expected target expire) c =
       (Throw (ForbiddenError "Link expired"), c)
     ∧ StorageHandler_get now target filename expire secret c =
       (Throw (ForbiddenError "Link expired"), c))
  ∧ (¬ (Z.of_N expire < now)%Z → secret ≠ expected target expire →
     StorageHandler_get now target filename expire secret c =
       (Throw (ForbiddenError "Invalid secret"), c)).
Proof.
  unfold StorageHandler_get. split.
  - intros Hexp. split; run; by rewrite bool_decide_eq_true_2.
  - intros Hlive Hne. run. rewrite bool_decide_eq_false_2 by done. simpl.
    by rewrite bool_decide_eq_true_2.
Qed.

(** ** Viewing the file list *)

(** C10. The file list of a principal that owns at least one record is
    shown whatever its privileges; with an empty or absent list the
    request needs the file-creation privilege. *)
Theorem files_view_privilege pjax c :
  (FilesHandler_get pjax c).1 =
    match User._files (user c) with
    | Some (_ :: _) => Ok ()
    | _ => if User.hasPriv (user c) PRIV_CREATE_FILE
           then Ok () else Throw (PrivilegeError PRIV_CREATE_FILE)
    end.
Proof.
  unfold FilesHandler_get, checkPriv. run. simpl.
  destruct (User._files (user c)) as [[|i l]|]; simpl;
    try destruct (User.hasPriv (user c) PRIV_CREATE_FILE); simpl;
    by destruct pjax.
Qed.

(** ** Download authorisation *)

(** C6. A download of [(uid, filename)]: an unknown owner is a
    [NotFoundError]; otherwise the request is granted, with a redirect to
    the signed link, exactly when the requester is the owner or the owner
    holds the file-creation privilege, and is a [ForbiddenError]
    otherwise. *)
Theorem download_authorization uid filename noDisposition c :
  match users c !! uid with
  | None =>
      FSDownloadHandler_get uid filename noDisposition c = (Throw (NotFoundError uid), c)
  | Some owner =>
      if bool_decide (User._id (user c) = uid) || User.hasPriv owner PRIV_CREATE_FILE
      then ∃ c', FSDownloadHandler_get uid filename noDisposition c = (Ok (), c')
                 ∧ Response.redirect (response c') =
                   Some (RedirectTo (storage_signDownloadLink (user_path uid filename)
                     (if noDisposition then None else Some filename) false "user" (store c)))
      else FSDownloadHandler_get uid filename noDisposition c =
             (Throw (ForbiddenError "Access denied"), c)
  end.
Proof.
  unfold FSDownloadHandler_get, user_getById, storage_getMeta_, oplog_log,
    storage_signDownloadLink_. run. simpl.
  destruct (users c !! uid) as [owner|]; simpl; [|done].
  destruct (decide (User._id (user c) = uid)) as [Heq|Hne].
  - rewrite (bool_decide_eq_true_2 _ Heq), (bool_decide_eq_false_2 (_ ≠ _)) by auto.
    simpl. eauto.
  - rewrite (bool_decide_eq_false_2 _ Hne), (bool_decide_eq_true_2 (_ ≠ _)) by auto.
    simpl. destruct (User.hasPriv owner PRIV_CREATE_FILE); simpl; eauto.
Qed.

(** ** Upload *)

Lemma filter_name_none (files : list FileRecord.t) (name : string) :
  (∀ i, i ∈ files → FileRecord.name i ≠ name) →
  filter (λ i, FileRecord.name i = name) files = [].
Proof.
  intros Hfresh. induction files as [|i files IH]; [done|].
  rewrite filter_cons_False by (apply Hfresh; left).
  apply IH. intros j Hj. apply Hfresh. by right.
Qed.

Lemma filter_name_fresh (files : list FileRecord.t) (name : string) :
  bool_decide (length (filter (λ i, FileRecord.name i = name) files) ≠ 0%nat) = false →
  ∀ i, i ∈ files → FileRecord.name i ≠ name.
Proof.
  intros Hlen i Hi Hname. apply bool_decide_eq_false in Hlen.
  apply Hlen. intros Hzero. apply length_zero_iff_nil in Hzero.
  assert (i ∈ filter (λ i, FileRecord.name i = name) files) as Hin
    by by apply list_elem_of_filter.
  rewrite Hzero in Hin. by apply elem_of_nil in Hin.
Qed.

Lemma filter_ext_elem {A} (P Q : A → Prop)
    `{!∀ x, Decision (P x), !∀ x, Decision (Q x)} (l : list A) :
  (∀ x, x ∈ l → P x ↔ Q x) → filter P l = filter Q l.
Proof.
  intros HPQ. induction l as [|x l IH]; [done|].
  rewrite !filter_cons.
  rewrite IH by (intros y Hy; apply HPQ; by right).
  apply decide_ext, HPQ. by left.
Qed.

Lemma filter_all {A} (P : A → Prop) `{!∀ x, Decision (P x)} (l : list A) :
  (∀ x, x ∈ l → P x) → filter P l = l.
Proof.
  intros HP. induction l as [|x l IH]; [done|].
  rewrite filter_cons_True by (apply HP; left).
  f_equal. apply IH. intros y Hy. apply HP. by right.
Qed.

Lemma postUploadFile_outcome filename rnd c :
  postUploadFile filename rnd c = upload_outcome filename rnd c.
Proof.
  unfold postUploadFile, upload_outcome, file_count, used_bytes.
  next checkPriv_run. destruct (negb _); [done|].
  next @gets_run.
  next quota_check_run. destruct (_ && _); [done|].
  next @gets_run.
  next throw_if_run. destruct (request_file c) as [file|]; [|done].
  rewrite bool_decide_eq_false_2 by done.
  next @deref_run.
  next @lift_run. destruct (statSync _) as [fsize|e]; [|done].
  next quota_check_run. destruct (_ && _); [done|].
  next throw_if_run. destruct (_ || _); [done|].
  next @deref_run. destruct (User._files (user c)) as [files|]; [|done].
  next throw_if_run. destruct (bool_decide _); [done|].
  rewrite run_bind. unfold storage_put_ at 1.
  destruct (storage_put _ _ _ _) as [[[]|e] s']; cbv beta iota; [|done].
  rewrite run_bind. unfold storage_getMeta_ at 1. rewrite gets_run. cbv beta iota.
  change (store (set_store s' c)) with s'.
  next throw_if_run. destruct (storage_getMeta _ s') as [meta|].
  - rewrite bool_decide_eq_false_2 by done.
    next @deref_run. reflexivity.
  - by rewrite bool_decide_eq_true_2.
Qed.

(** Both quota checks let a principal through that has the
    unlimited-quota privilege or is below both limits. *)
Lemma quota_checks_pass u (fsize : Z) :
  User.hasPriv u PRIV_UNLIMITED_QUOTA = true
    ∨ (file_count u < system_get "limit.user_files"
       ∧ used_bytes u + fsize < system_get "limit.user_files_size")%Z →
  bool_decide (system_get "limit.user_files" ≤ file_count u)%Z
    && negb (User.hasPriv u PRIV_UNLIMITED_QUOTA) = false
  ∧ bool_decide (system_get "limit.user_files_size" ≤ used_bytes u + fsize)%Z
    && negb (User.hasPriv u PRIV_UNLIMITED_QUOTA) = false.
Proof.
  intros [-> | [Hcount Hsize]].
  - by rewrite !andb_false_r.
  - by rewrite !bool_decide_eq_false_2 by lia.
Qed.

(** What a successful upload has checked and done. *)
Lemma postUploadFile_Ok_inv c filename rnd file c1 :
  request_file c = Some file →
  postUploadFile filename rnd c = (Ok (), c1) →
  let name := upload_name filename file rnd in
  ∃ files meta s',
    User._files (user c) = Some files
    ∧ (∀ i, i ∈ files → FileRecord.name i ≠ name)
    ∧ c1 = uploaded c files name meta s'.
Proof.
  intros Hfile Hrun name.
  rewrite postUploadFile_outcome in Hrun. unfold upload_outcome in Hrun.
  rewrite Hfile in Hrun. fold name in Hrun.
  destruct (negb _); [done|].
  destruct (_ && _); [done|].
  destruct (statSync _) as [fsize|e]; [|done].
  destruct (_ && _); [done|].
  destruct (_ || _); [done|].
  destruct (User._files (user c)) as [files|]; [|done].
  destruct (bool_decide _) eqn:Hfresh; [done|].
  destruct (storage_put _ _ _ _) as [[[]|e] s']; [|done].
  destruct (storage_getMeta _ s') as [meta|]; [|done].
  exists files, meta, s'. split; [done|]. split; [|congruence].
  by apply filter_name_fresh.
Qed.

(** Without the file-creation privilege no upload gets past line 58. *)
Lemma upload_requires_create_priv c filename rnd :
  User.hasPriv (user c) PRIV_CREATE_FILE = false →
  postUploadFile filename rnd c = (Throw (PrivilegeError PRIV_CREATE_FILE), c).
Proof.
  intros Hcreate. rewrite postUploadFile_outcome. unfold upload_outcome.
  by rewrite Hcreate.
Qed.

(** C5. A principal that holds the file-creation privilege and not the
    unlimited-quota privilege, and whose file count equals the count
    limit, cannot upload: the request fails with the count quota error
    whatever object is uploaded, also one of size 0, and changes
    nothing. *)
Theorem upload_count_limit c filename rnd :
  User.hasPriv (user c) PRIV_CREATE_FILE = true →
  User.hasPriv (user c) PRIV_UNLIMITED_QUOTA = false →
  file_count (user c) = system_get "limit.user_files" →
  postUploadFile filename rnd c = (Throw (ForbiddenError "File limit exceeded."), c).
Proof.
  intros Hcreate Hunlimited Hcount.
  rewrite postUploadFile_outcome. unfold upload_outcome.
  rewrite Hcreate, Hunlimited. simpl.
  by rewrite bool_decide_eq_true_2 by lia.
Qed.

(** C3, as the code has it.  For a principal that holds the
    file-creation privilege and not the unlimited-quota privilege and is
    below the count limit: an upload that brings the aggregate size to
    the byte limit or beyond fails with the size quota error; an upload
    that keeps it strictly below the limit passes the size check, and
    succeeds when the name is acceptable and new and the storage engine
    takes the object and returns its metadata. *)
Theorem upload_size_boundary c filename rnd file fsize :
  let u := user c in
  let name := upload_name filename file rnd in
  User.hasPriv u PRIV_CREATE_FILE = true →
  User.hasPriv u PRIV_UNLIMITED_QUOTA = false →
  (file_count u < system_get "limit.user_files")%Z →
  request_file c = Some file →
  statSync (File.filepath file) = Ok fsize →
  ((system_get "limit.user_files_size" ≤ used_bytes u + fsize)%Z →
     postUploadFile filename rnd c =
       (Throw (ForbiddenError "File size limit exceeded."), c))
  ∧ ((used_bytes u + fsize < system_get "limit.user_files_size")%Z →
     ∀ files meta s',
       includes "/" name = false →
       includes ".." name = false →
       User._files u = Some files →
       (∀ i, i ∈ files → FileRecord.name i ≠ name) →
       storage_put (user_path (User._id u) name) (File.filepath file) (User._id u)
         (store c) = (Ok (), s') →
       storage_getMeta (user_path (User._id u) name) s' = Some meta →
       postUploadFile filename rnd c = (Ok (), uploaded c files name meta s')).
Proof.
  intros u name Hcreate Hunlimited Hcount Hfile Hstat.
  rewrite postUploadFile_outcome. unfold upload_outcome. fold u.
  rewrite Hcreate, Hunlimited, Hfile, Hstat. simpl.
  rewrite (bool_decide_eq_false_2 (_ ≤ file_count u)%Z) by lia. simpl.
  split.
  - intros Hover. by rewrite bool_decide_eq_true_2.
  - intros Hunder files meta s' Hslash Hdots Hfiles Hfresh Hput Hmeta.
    rewrite bool_decide_eq_false_2 by lia. simpl. fold name.
    rewrite Hslash, Hdots, Hfiles. simpl.
    rewrite (filter_name_none files name Hfresh). simpl.
    by rewrite Hput, Hmeta.
Qed.

(** C4, as the code has it.  The name of an upload is validated after
    the privilege check, the count quota check, the check that a file
    was sent, the reading of its size and the size quota check, in that
    order.  An upload whose name contains a slash or two dots therefore
    always fails and changes nothing, with the error of the first of
    those checks that fails, and with the invalid-filename error when
    all of them pass.  The name is never empty, since the derivation
    ends in the random name. *)
Theorem upload_bad_filename c filename rnd :
  let u := user c in
  (∀ file, request_file c = Some file →
     includes "/" (upload_name filename file rnd)
     || includes ".." (upload_name filename file rnd) = true) →
  postUploadFile filename rnd c =
    (Throw
       (if negb (User.hasPriv u PRIV_CREATE_FILE)
        then PrivilegeError PRIV_CREATE_FILE
        else if bool_decide (system_get "limit.user_files" ≤ file_count u)%Z
                && negb (User.hasPriv u PRIV_UNLIMITED_QUOTA)
        then ForbiddenError "File limit exceeded."
        else match request_file c with
        | None => ValidationError "file" None
        | Some file =>
            match statSync (File.filepath file) with
            | Throw e => e
            | Ok fsize =>
                if bool_decide
                     (system_get "limit.user_files_size" ≤ used_bytes u + fsize)%Z
                   && negb (User.hasPriv u PRIV_UNLIMITED_QUOTA)
                then ForbiddenError "File size limit exceeded."
                else ValidationError "filename" (Some "Bad filename")
            end
        end), c)
  ∧ (∀ file, truthy rnd = true → truthy (upload_name filename file rnd) = true).
Proof.
  intros u Hbad. split.
  - rewrite postUploadFile_outcome. unfold upload_outcome. fold u.
    destruct (negb _); [done|].
    destruct (_ && _); [done|].
    destruct (request_file c) as [file|]; [|done].
    rewrite (Hbad file eq_refl).
    destruct (statSync _) as [fsize|e]; [|done].
    by destruct (_ && _).
  - intros file Hrnd. unfold upload_name. by do 2 apply or_else_truthy.
Qed.

(** C7. An upload that passes every check and whose object the storage
    engine takes, but for which metadata retrieval then returns nothing,
    fails with the plain error "Upload failed"; the file list of
    [this.user] and the identity store are as before, no record is
    appended and the ledger is not written. *)
Theorem upload_meta_missing c filename rnd file fsize files s' :
  let u := user c in
  let name := upload_name filename file rnd in
  User.hasPriv u PRIV_CREATE_FILE = true →
  User.hasPriv u PRIV_UNLIMITED_QUOTA = true
    ∨ (file_count u < system_get "limit.user_files"
       ∧ used_bytes u + fsize < system_get "limit.user_files_size")%Z →
  request_file c = Some file →
  statSync (File.filepath file) = Ok fsize →
  includes "/" name = false →
  includes ".." name = false →
  User._files u = Some files →
  (∀ i, i ∈ files → FileRecord.name i ≠ name) →
  storage_put (user_path (User._id u) name) (File.filepath file) (User._id u) (store c)
    = (Ok (), s') →
  storage_getMeta (user_path (User._id u) name) s' = None →
  ∃ c', postUploadFile filename rnd c = (Throw (PlainError "Upload failed"), c')
        ∧ user c' = user c
        ∧ users c' = users c
        ∧ store c' = s'.
Proof.
  intros u name Hcreate Hquota Hfile Hstat Hslash Hdots Hfiles Hfresh Hput Hmeta.
  exists (set_store s' c). split; [|done].
  destruct (quota_checks_pass u fsize Hquota) as [Hcount Hsize].
  rewrite postUploadFile_outcome. unfold upload_outcome. cbv zeta. fold u.
  rewrite Hcreate, Hcount, Hfile, Hstat, Hsize. cbv beta iota. fold name.
  rewrite Hslash, Hdots, Hfiles. simpl.
  rewrite (filter_name_none files name Hfresh). simpl.
  by rewrite Hput, Hmeta.
Qed.

(** ** Delete *)

Lemma postDeleteFiles_outcome files c :
  postDeleteFiles files c = delete_outcome files c.
Proof.
  unfold postDeleteFiles, delete_outcome, delete_paths, kept.
  next @gets_run.
  rewrite run_bind. unfold storage_del_call at 1.
  destruct (storage_del _ _ _) as [deleted s']. cbv beta iota.
  next @deref_run. change (user (set_store s' c)) with (user c).
  destruct (User._files (user c)) as [own|]; [|done].
  rewrite run_bind. unfold user_setById_files at 1, modify at 1. cbv beta iota.
  next @lift_run. by destruct deleted as [[]|e].
Qed.

(** The identity store after a delete request, and its outcome. *)
Lemma postDeleteFiles_users c (files : list string) own :
  User._files (user c) = Some own →
  let uid := User._id (user c) in
  let out := postDeleteFiles files c in
  users out.2 = alter (λ v, User.with_files v (kept files own)) uid (users c)
  ∧ out.1 = (storage_del (delete_paths uid files) uid (store c)).1.
Proof.
  intros Hown uid out.
  unfold out. rewrite postDeleteFiles_outcome. unfold delete_outcome. fold uid.
  rewrite Hown.
  by destruct (storage_del _ _ _) as [[[]|e] s'].
Qed.

(** Deleting the name just uploaded keeps exactly the records that were
    there before. *)
Lemma kept_after_upload (files : list FileRecord.t) (name : string) meta :
  (∀ i, i ∈ files → FileRecord.name i ≠ name) →
  kept [name] (files ++ [new_record name meta]) = files.
Proof.
  intros Hfresh. unfold kept. rewrite filter_app.
  rewrite filter_all.
  - rewrite filter_cons_False; [by rewrite filter_nil, app_nil_r|].
    intros Hnot. apply Hnot. simpl. by left.
  - intros i Hi Hin%list_elem_of_singleton. by apply (Hfresh i).
Qed.

(** C9. A delete request of [files] by a principal whose file list is
    [own] overwrites the ledger with the records of [own] whose names are
    not in [files], in their order and unchanged: the kept list is a
    sublist of [own] that holds exactly those records.  Names that match
    no record change nothing, and the request fails only when the storage
    engine rejects the deletion, never because of the ledger update. *)
Theorem delete_ledger c files own :
  User._files (user c) = Some own →
  let uid := User._id (user c) in
  let out := postDeleteFiles files c in
  users out.2 = alter (λ v, User.with_files v (kept files own)) uid (users c)
  ∧ (users c !! uid = Some (user c) → ledger uid out.2 = Some (kept files own))
  ∧ (∀ i, i ∈ kept files own ↔ i ∈ own ∧ FileRecord.name i ∉ files)
  ∧ kept files own `sublist_of` own
  ∧ (∀ extra, (∀ t i, t ∈ extra → i ∈ own → FileRecord.name i ≠ t) →
       kept (files ++ extra) own = kept files own)
  ∧ out.1 = (storage_del (delete_paths uid files) uid (store c)).1.
Proof.
  intros Hown uid out.
  destruct (postDeleteFiles_users c files own Hown) as [Husers Hres].
  fold uid out in Husers, Hres.
  split; [done|]. split; [|split; [|split; [|split; [|done]]]].
  - intros Hstored. unfold ledger. by rewrite Husers, lookup_alter_eq, Hstored.
  - intros i. unfold kept. rewrite list_elem_of_filter. tauto.
  - apply sublist_filter.
  - intros extra Hextra. unfold kept. apply filter_ext_elem.
    intros i Hi. rewrite elem_of_app. split; [tauto|].
    intros Hkeep [?|Hin]; [done|]. by apply (Hextra _ i Hin Hi).
Qed.

(** C8. An upload that succeeds, followed by a delete request of the
    uploaded name by the same principal, with nothing else writing the
    ledger in between: the upload appended one record to the ledger, and
    after the delete the identity store, and so the principal's ledger,
    its file count and its aggregate size, are what they were before the
    upload.  [c] is the context of the upload, whose [this.user] is the
    principal as stored; [d] is the context of the delete request, whose
    [this.user] is the principal as stored after the upload. *)
Theorem upload_then_delete c filename rnd file c1 (d : Ctx S) :
  let uid := User._id (user c) in
  let name := upload_name filename file rnd in
  users c !! uid = Some (user c) →
  request_file c = Some file →
  postUploadFile filename rnd c = (Ok (), c1) →
  users d = users c1 →
  users c1 !! uid = Some (user d) →
  let c2 := (postDeleteFiles [name] d).2 in
  (∃ files meta, User._files (user c) = Some files
                 ∧ ledger uid c1 = Some (files ++ [new_record name meta]))
  ∧ users c2 = users c
  ∧ ledger uid c2 = User._files (user c)
  ∧ (∃ u2, users c2 !! uid = Some u2
           ∧ file_count u2 = file_count (user c)
           ∧ used_bytes u2 = used_bytes (user c)).
Proof.
  intros uid name Hstored Hfile Hrun Hd Hreload c2.
  destruct (postUploadFile_Ok_inv c filename rnd file c1 Hfile Hrun)
    as (files & meta & s' & Hfiles & Hfresh & ->).
  fold name in Hfresh. simpl in Hd, Hreload. fold uid in Hd, Hreload.
  rewrite lookup_alter_eq, Hstored in Hreload. simpl in Hreload.
  injection Hreload as Huser.
  assert (users c2 = users c) as Husers.
  { destruct (postDeleteFiles_users d [name] (files ++ [new_record name meta]))
      as [Hus _]; [by rewrite <- Huser|].
    unfold c2. rewrite Hus, Hd, <- Huser. simpl. fold uid.
    rewrite alter_alter_eq. apply alter_id. intros x Hx.
    rewrite Hstored in Hx. injection Hx as <-. simpl.
    rewrite (kept_after_upload files name meta Hfresh).
    destruct (user c) as [id priv fs]. simpl in *. by rewrite Hfiles. }
  split; [|split; [done|split]].
  - exists files, meta. split; [done|].
    unfold ledger. simpl. fold uid. by rewrite lookup_alter_eq, Hstored.
  - unfold ledger. by rewrite Husers, Hstored.
  - exists (user c). by rewrite Husers.
Qed.

(** ** More on uploads *)

Lemma file_count_Some (id : Z) priv (files : list FileRecord.t) :
  file_count (User.mk id priv (Some files)) = Z.of_nat (length files).
Proof.
  unfold file_count, num_or, optional_length, falsy_num. simpl.
  case_bool_decide; lia.
Qed.

Lemma Math_sum_from (a : Z) (l : list Z) : foldl Z.add a l = a + Math_sum l.
Proof.
  unfold Math_sum. revert a. induction l as [|x l IH]; intros a; simpl; [lia|].
  rewrite (IH (a + x)), (IH (0 + x)). lia.
Qed.

Lemma Math_sum_cons (x : Z) (l : list Z) : Math_sum (x :: l) = x + Math_sum l.
Proof. unfold Math_sum at 1. simpl. by rewrite Math_sum_from. Qed.

Lemma Math_sum_snoc (l : list Z) (x : Z) : Math_sum (l ++ [x]) = Math_sum l + x.
Proof. unfold Math_sum. by rewrite foldl_snoc. Qed.

(** Everything that a successful upload has checked, and what it did. *)
Lemma postUploadFile_Ok_facts c filename rnd c1 :
  postUploadFile filename rnd c = (Ok (), c1) →
  ∃ file fsize files meta s',
    let u := user c in
    let name := upload_name filename file rnd in
    User.hasPriv u PRIV_CREATE_FILE = true
    ∧ (User.hasPriv u PRIV_UNLIMITED_QUOTA = true
       ∨ (file_count u < system_get "limit.user_files"
          ∧ used_bytes u + fsize < system_get "limit.user_files_size"))
    ∧ request_file c = Some file
    ∧ statSync (File.filepath file) = Ok fsize
    ∧ safe_name name
    ∧ User._files u = Some files
    ∧ (∀ i, i ∈ files → FileRecord.name i ≠ name)
    ∧ storage_put (user_path (User._id u) name) (File.filepath file) (User._id u)
        (store c) = (Ok (), s')
    ∧ storage_getMeta (user_path (User._id u) name) s' = Some meta
    ∧ c1 = uploaded c files name meta s'.
Proof.
  intros Hrun.
  rewrite postUploadFile_outcome in Hrun. unfold upload_outcome in Hrun.
  destruct (User.hasPriv (user c) PRIV_CREATE_FILE) eqn:Hcreate; [|done].
  simpl in Hrun.
  destruct (bool_decide (_ ≤ file_count _) && _) eqn:Hcount; [done|].
  destruct (request_file c) as [file|]; [|done].
  destruct (statSync _) as [fsize|e] eqn:Hstat; [|done].
  destruct (bool_decide (_ ≤ used_bytes _ + _) && _) eqn:Hsize; [done|].
  destruct (includes "/" _ || includes ".." _) eqn:Hname; [done|].
  destruct (User._files (user c)) as [files|] eqn:Hfiles; [|done].
  destruct (bool_decide (length _ ≠ 0%nat)) eqn:Hfresh; [done|].
  destruct (storage_put _ _ _ _) as [[[]|e] s'] eqn:Hput; [|done].
  destruct (storage_getMeta _ s') as [meta|] eqn:Hmeta; [|done].
  exists file, fsize, files, meta, s'. cbv zeta.
  apply orb_false_iff in Hname as [Hslash Hdots].
  repeat split; try done.
  - apply andb_false_iff in Hcount, Hsize.
    destruct (User.hasPriv (user c) PRIV_UNLIMITED_QUOTA); [by left|right].
    destruct Hcount as [Hcount|?], Hsize as [Hsize|?]; try done.
    apply bool_decide_eq_false in Hcount, Hsize. lia.
  - by apply filter_name_fresh.
  - congruence.
Qed.

Lemma upload_failure_keeps_ledger_aux c filename rnd e c' :
  postUploadFile filename rnd c = (Throw e, c') →
  (user c' = user c ∧ response c' = response c ∧ oplog c' = oplog c)
  ∧ users c' = users c.
Proof.
  rewrite postUploadFile_outcome. unfold upload_outcome.
  destruct (negb _); [by intros [= _ <-]|].
  destruct (_ && _); [by intros [= _ <-]|].
  destruct (request_file c) as [file|]; [|by intros [= _ <-]].
  destruct (statSync _) as [fsize|e0]; [|by intros [= _ <-]].
  destruct (_ && _); [by intros [= _ <-]|].
  destruct (_ || _); [by intros [= _ <-]|].
  destruct (User._files (user c)) as [files|]; [|by intros [= _ <-]].
  destruct (bool_decide _); [by intros [= _ <-]|].
  destruct (storage_put _ _ _ _) as [[[]|e0] s']; [|by intros [= _ <-]].
  destruct (storage_getMeta _ s') as [meta|]; [done|by intros [= _ <-]].
Qed.

(** X1. An upload that fails at one of its checks, at the reading of the
    file size, at [storage.put] or because no metadata came back (lines
    58-75) leaves [this.user], the identity store, the response and the
    operation log as they were: the context is the one before the
    request, or differs from it only in the state in which the
    [storage.put] of line 72 left the storage engine.  These are all the
    failures of the embedding, which takes [user.setById] as a call
    that does not reject; a rejection of the write of line 77, after the
    push of line 76, is outside this statement. *)
Theorem upload_failure_keeps_ledger c filename rnd e c' :
  postUploadFile filename rnd c = (Throw e, c') →
  (user c' = user c ∧ users c' = users c
   ∧ response c' = response c ∧ oplog c' = oplog c)
  ∧ (c' = c
     ∨ ∃ file files outcome,
         request_file c = Some file
         ∧ User._files (user c) = Some files
         ∧ storage_put (user_path (User._id (user c)) (upload_name filename file rnd))
             (File.filepath file) (User._id (user c)) (store c) = outcome
         ∧ c' = set_store outcome.2 c
         ∧ (outcome.1 = Throw e
            ∨ (e = PlainError "Upload failed"
               ∧ storage_getMeta
                   (user_path (User._id (user c)) (upload_name filename file rnd))
                   outcome.2 = None))).
Proof.
  intros Hrun. split.
  { destruct (upload_failure_keeps_ledger_aux c filename rnd e c' Hrun)
      as [(Huser & Hresponse & Hlog) Husers].
    done. }
  revert Hrun. rewrite postUploadFile_outcome. unfold upload_outcome.
  destruct (negb _); [intros [= _ <-]; by left|].
  destruct (_ && _); [intros [= _ <-]; by left|].
  destruct (request_file c) as [file|]; [|intros [= _ <-]; by left].
  destruct (statSync _) as [fsize|e0]; [|intros [= _ <-]; by left].
  destruct (_ && _); [intros [= _ <-]; by left|].
  destruct (_ || _); [intros [= _ <-]; by left|].
  destruct (User._files (user c)) as [files|]; [|intros [= _ <-]; by left].
  destruct (bool_decide _); [intros [= _ <-]; by left|].
  destruct (storage_put _ _ _ _) as [[[]|e0] s'] eqn:Hput.
  - destruct (storage_getMeta _ s') as [meta|] eqn:Hmeta; [done|].
    intros [= <- <-]. right. exists file, files, (Ok (), s').
    repeat split; try done. right. by split.
  - intros [= <- <-]. right. exists file, files, (Throw e0, s').
    repeat split; try done. by left.
Qed.


(** X3. A successful upload keeps the names of the file list pairwise
    distinct, in [this.user] and in what it writes to the identity
    store. *)
Theorem upload_keeps_names_unique c filename rnd c1 files :
  User._files (user c) = Some files →
  NoDup (names files) →
  postUploadFile filename rnd c = (Ok (), c1) →
  ∃ files',
    User._files (user c1) = Some files'
    ∧ NoDup (names files')
    ∧ (is_Some (users c !! User._id (user c)) →
       ledger (User._id (user c)) c1 = Some files').
Proof.
  intros Hfiles Hnodup Hrun.
  destruct (postUploadFile_Ok_facts c filename rnd c1 Hrun)
    as (file & fsize & files0 & meta & s' & _ & _ & _ & _ & _ & Hfiles0 & Hfresh & _ & _ & ->).
  rewrite Hfiles in Hfiles0. injection Hfiles0 as <-.
  eexists. split; [done|]. split.
  - unfold names. rewrite fmap_app. apply NoDup_app. split; [done|]. split.
    + intros n Hn Hin. apply list_elem_of_singleton in Hin. subst n.
      apply list_elem_of_fmap in Hn as (i & Hname & Hi).
      by apply (Hfresh i Hi).
    + apply NoDup_singleton.
  - intros [u0 Hu0]. unfold ledger. simpl.
    by rewrite lookup_alter_eq, Hu0.
Qed.

(** X4. After a successful upload by a principal without the
    unlimited-quota privilege the file count has grown by one and does not
    exceed the count limit.  The aggregate grows by the size that the
    storage engine reports for the object, while the quota was checked
    with the size of the local file: the aggregate stays below the byte
    limit when the two sizes agree. *)
Theorem upload_within_quota c filename rnd file fsize c1 :
  User.hasPriv (user c) PRIV_UNLIMITED_QUOTA = false →
  request_file c = Some file →
  statSync (File.filepath file) = Ok fsize →
  postUploadFile filename rnd c = (Ok (), c1) →
  file_count (user c1) = file_count (user c) + 1
  ∧ file_count (user c1) ≤ system_get "limit.user_files"
  ∧ ∃ meta,
      storage_getMeta
        (user_path (User._id (user c)) (upload_name filename file rnd)) (store c1)
        = Some meta
      ∧ used_bytes (user c1) = used_bytes (user c) + Meta.size meta
      ∧ (Meta.size meta = fsize →
         used_bytes (user c1) < system_get "limit.user_files_size").
Proof.
  intros Hunlimited Hfile Hstat Hrun.
  destruct (postUploadFile_Ok_facts c filename rnd c1 Hrun)
    as (file0 & fsize0 & files & meta & s' & _ & Hquota & Hfile0 & Hstat0 & _
        & Hfiles & _ & _ & Hmeta & ->).
  rewrite Hfile in Hfile0. injection Hfile0 as <-.
  rewrite Hstat in Hstat0. injection Hstat0 as <-.
  destruct Hquota as [? | [Hcount Hsize]]; [congruence|].
  assert (file_count (user c) = Z.of_nat (length files)) as Hbefore.
  { destruct (user c) as [id priv fs]. simpl in Hfiles. subst fs.
    apply file_count_Some. }
  assert (file_count (user (uploaded c files (upload_name filename file rnd) meta s'))
          = file_count (user c) + 1) as Hafter.
  { rewrite Hbefore. unfold uploaded, User.with_files. simpl.
    rewrite file_count_Some, length_app. simpl. lia. }
  assert (used_bytes (user (uploaded c files (upload_name filename file rnd) meta s'))
          = used_bytes (user c) + Meta.size meta) as Hbytes.
  { unfold used_bytes. rewrite Hfiles. simpl.
    rewrite fmap_app. simpl. by rewrite Math_sum_snoc. }
  split; [done|]. split; [lia|].
  exists meta. split; [done|]. split; [done|]. lia.
Qed.

(** X5. The unlimited-quota privilege lifts both limits: an upload by its
    holder succeeds however many files and bytes the principal already
    has, when the name is acceptable and new and the storage engine takes
    the object and returns its metadata. *)
Theorem upload_unlimited_quota c filename rnd file fsize files meta s' :
  let u := user c in
  let name := upload_name filename file rnd in
  User.hasPriv u PRIV_CREATE_FILE = true →
  User.hasPriv u PRIV_UNLIMITED_QUOTA = true →
  request_file c = Some file →
  statSync (File.filepath file) = Ok fsize →
  safe_name name →
  User._files u = Some files →
  (∀ i, i ∈ files → FileRecord.name i ≠ name) →
  storage_put (user_path (User._id u) name) (File.filepath file) (User._id u) (store c)
    = (Ok (), s') →
  storage_getMeta (user_path (User._id u) name) s' = Some meta →
  postUploadFile filename rnd c = (Ok (), uploaded c files name meta s').
Proof.
  intros u name Hcreate Hunlimited Hfile Hstat [Hslash Hdots] Hfiles Hfresh Hput Hmeta.
  rewrite postUploadFile_outcome. unfold upload_outcome. cbv zeta. fold u.
  rewrite Hcreate, Hunlimited, Hfile, Hstat, !andb_false_r. cbv beta iota. fold name.
  rewrite Hslash, Hdots, Hfiles. simpl.
  rewrite (filter_name_none files name Hfresh). simpl.
  by rewrite Hput, Hmeta.
Qed.

(** X6. An upload under a name that the file list already has is refused
    with "file exists" once the privilege, quota and name checks have
    passed; nothing is written, neither to the storage engine nor to the
    ledger. *)
Theorem upload_existing_name c filename rnd file fsize files i :
  let u := user c in
  let name := upload_name filename file rnd in
  User.hasPriv u PRIV_CREATE_FILE = true →
  User.hasPriv u PRIV_UNLIMITED_QUOTA = true
    ∨ (file_count u < system_get "limit.user_files"
       ∧ used_bytes u + fsize < system_get "limit.user_files_size") →
  request_file c = Some file →
  statSync (File.filepath file) = Ok fsize →
  safe_name name →
  User._files u = Some files →
  i ∈ files →
  FileRecord.name i = name →
  postUploadFile filename rnd c = (Throw (BadRequestError "file exists"), c).
Proof.
  intros u name Hcreate Hquota Hfile Hstat [Hslash Hdots] Hfiles Hi Hname.
  destruct (quota_checks_pass u fsize Hquota) as [Hcount Hsize].
  rewrite postUploadFile_outcome. unfold upload_outcome. cbv zeta. fold u.
  rewrite Hcreate, Hcount, Hfile, Hstat, Hsize. cbv beta iota. fold name.
  rewrite Hslash, Hdots, Hfiles. simpl.
  rewrite bool_decide_eq_true_2; [done|].
  intros Hzero. apply length_zero_iff_nil in Hzero.
  assert (i ∈ filter (λ j, FileRecord.name j = name) files) as Hin
    by by apply list_elem_of_filter.
  rewrite Hzero in Hin. by apply elem_of_nil in Hin.
Qed.

(** X7. Whatever their outcome, an upload and a delete request touch the
    entry of no other principal in the identity store. *)
Theorem other_principals_untouched c filename rnd (files : list string) uid' :
  uid' ≠ User._id (user c) →
  users (postUploadFile filename rnd c).2 !! uid' = users c !! uid'
  ∧ users (postDeleteFiles files c).2 !! uid' = users c !! uid'.
Proof.
  intros Hother. split.
  - destruct (postUploadFile filename rnd c) as [[[]|e] c1] eqn:Hrun; simpl.
    + destruct (postUploadFile_Ok_facts c filename rnd c1 Hrun)
        as (file & fsize & fs & meta & s' & _ & _ & _ & _ & _ & _ & _ & _ & _ & ->).
      simpl. by rewrite lookup_alter_ne.
    + destruct (upload_failure_keeps_ledger_aux c filename rnd e c1 Hrun) as [_ ->].
      done.
  - rewrite postDeleteFiles_outcome. unfold delete_outcome.
    destruct (storage_del _ _ _) as [deleted s'].
    destruct (User._files (user c)) as [own|]; [|done].
    destruct deleted as [[]|e]; simpl; by rewrite lookup_alter_ne.
Qed.

(** X8. The ledger is overwritten as a whole: after a successful upload
    the identity store holds the file list of [this.user] with the new
    record appended, whatever list it held for the principal before. *)
Theorem upload_overwrites_ledger c filename rnd c1 :
  is_Some (users c !! User._id (user c)) →
  postUploadFile filename rnd c = (Ok (), c1) →
  ∃ files file meta,
    User._files (user c) = Some files
    ∧ request_file c = Some file
    ∧ ledger (User._id (user c)) c1
      = Some (files ++ [new_record (upload_name filename file rnd) meta]).
Proof.
  intros [u0 Hu0] Hrun.
  destruct (postUploadFile_Ok_facts c filename rnd c1 Hrun)
    as (file & fsize & files & meta & s' & _ & _ & Hfile & _ & _ & Hfiles & _ & _ & _ & ->).
  exists files, file, meta. split; [done|]. split; [done|].
  unfold ledger. simpl. by rewrite lookup_alter_eq, Hu0.
Qed.

(** X9. A principal whose [_files] is undefined cannot upload: lines 59
    and 65 allow for the missing list, line 71 reads it, so the request
    fails at the latest there, before anything is written. *)
Theorem upload_absent_list_fails c filename rnd :
  User._files (user c) = None →
  (∃ e, postUploadFile filename rnd c = (Throw e, c))
  ∧ (∀ file fsize,
       User.hasPriv (user c) PRIV_CREATE_FILE = true →
       User.hasPriv (user c) PRIV_UNLIMITED_QUOTA = true
         ∨ (0 < system_get "limit.user_files"
            ∧ fsize < system_get "limit.user_files_size") →
       request_file c = Some file →
       statSync (File.filepath file) = Ok fsize →
       safe_name (upload_name filename file rnd) →
       postUploadFile filename rnd c = (Throw TypeError, c)).
Proof.
  intros Hfiles. split.
  - rewrite postUploadFile_outcome. unfold upload_outcome. cbv zeta.
    rewrite Hfiles.
    destruct (negb _); [eauto|].
    destruct (_ && _); [eauto|].
    destruct (request_file c) as [file|]; [|eauto].
    destruct (statSync _) as [fsize|e0]; [|eauto].
    destruct (_ && _); [eauto|].
    destruct (_ || _); eauto.
  - intros file fsize Hcreate Hquota Hfile Hstat [Hslash Hdots].
    assert (User.hasPriv (user c) PRIV_UNLIMITED_QUOTA = true
            ∨ (file_count (user c) < system_get "limit.user_files"
               ∧ used_bytes (user c) + fsize < system_get "limit.user_files_size"))
      as Hquota'.
    { destruct Hquota as [?|[? ?]]; [by left|right].
      unfold file_count, used_bytes. by rewrite Hfiles. }
    destruct (quota_checks_pass (user c) fsize Hquota') as [Hcount Hsize].
    rewrite postUploadFile_outcome. unfold upload_outcome. cbv zeta.
    rewrite Hcreate, Hcount, Hfile, Hstat, Hsize. cbv beta iota.
    by rewrite Hslash, Hdots, Hfiles.
Qed.

(** X10. An upload request without a file part is refused with the
    validation error for [file] once the privilege and the count check
    have passed, and changes nothing. *)
Theorem upload_missing_file c filename rnd :
  User.hasPriv (user c) PRIV_CREATE_FILE = true →
  User.hasPriv (user c) PRIV_UNLIMITED_QUOTA = true
    ∨ file_count (user c) < system_get "limit.user_files" →
  request_file c = None →
  postUploadFile filename rnd c = (Throw (ValidationError "file" None), c).
Proof.
  intros Hcreate Hquota Hfile.
  rewrite postUploadFile_outcome. unfold upload_outcome. cbv zeta.
  rewrite Hcreate, Hfile. simpl.
  destruct Hquota as [-> | Hcount]; [by rewrite andb_false_r|].
  by rewrite bool_decide_eq_false_2 by lia.
Qed.

(** ** More on deletes *)

Lemma kept_kept (files1 files2 : list string) (own : list FileRecord.t) :
  kept files2 (kept files1 own) = kept (files1 ++ files2) own.
Proof.
  unfold kept. rewrite list_filter_filter. apply filter_ext_elem.
  intros i _. rewrite elem_of_app. tauto.
Qed.

Lemma Math_sum_kept_le (files : list string) (own : list FileRecord.t) :
  Forall (λ i, 0 ≤ FileRecord.size i) own →
  Math_sum (FileRecord.size <$> kept files own) ≤ Math_sum (FileRecord.size <$> own).
Proof.
  unfold kept. induction 1 as [|i own Hi _ IH]; [done|].
  rewrite filter_cons. destruct (decide _).
  - rewrite !fmap_cons, !Math_sum_cons. lia.
  - rewrite fmap_cons, Math_sum_cons. lia.
Qed.

Lemma names_kept_sublist (files : list string) (own : list FileRecord.t) :
  names (kept files own) `sublist_of` names own.
Proof.
  unfold names, kept. induction own as [|i own IH]; [done|].
  rewrite filter_cons. destruct (decide _).
  - rewrite !fmap_cons. by apply sublist_skip.
  - rewrite fmap_cons. by apply sublist_cons.
Qed.

(** X11. Two delete requests in a row, with the session reloaded in
    between, leave the identity store as one request for both lists of
    names does; in particular a repeated delete changes nothing more. *)
Theorem delete_compose c (files1 files2 : list string) own (d : Ctx S) :
  let uid := User._id (user c) in
  User._files (user c) = Some own →
  users c !! uid = Some (user c) →
  users d = users (postDeleteFiles files1 c).2 →
  users (postDeleteFiles files1 c).2 !! uid = Some (user d) →
  users (postDeleteFiles files2 d).2 = users (postDeleteFiles (files1 ++ files2) c).2
  ∧ (files2 = files1 →
     users (postDeleteFiles files2 d).2 = users (postDeleteFiles files1 c).2).
Proof.
  intros uid Hown Hstored Hd Hreload.
  destruct (postDeleteFiles_users c files1 own Hown) as [Hfirst _].
  destruct (postDeleteFiles_users c (files1 ++ files2) own Hown) as [Hboth _].
  fold uid in Hfirst, Hboth.
  rewrite Hfirst, lookup_alter_eq, Hstored in Hreload. injection Hreload as Huser.
  destruct (postDeleteFiles_users d files2 (kept files1 own)) as [Hsecond _];
    [by rewrite <- Huser|].
  assert (users (postDeleteFiles files2 d).2
          = alter (λ v, User.with_files v (kept (files1 ++ files2) own)) uid (users c))
    as Hcomposed.
  { rewrite Hsecond, Hd, Hfirst, <- Huser. simpl. fold uid.
    rewrite alter_alter_eq, kept_kept. by apply alter_ext. }
  split; [by rewrite Hcomposed, Hboth|].
  intros ->. rewrite Hcomposed, Hfirst.
  apply alter_ext. intros v _. f_equal. unfold kept. apply filter_ext_elem.
  intros i _. rewrite elem_of_app. tauto.
Qed.

(** X12. A delete request never grows the ledger: the stored principal
    has at most as many files as before, and at most as many bytes when
    no record has a negative size. *)
Theorem delete_shrinks c (files : list string) own :
  let uid := User._id (user c) in
  User._files (user c) = Some own →
  users c !! uid = Some (user c) →
  ∃ u', users (postDeleteFiles files c).2 !! uid = Some u'
        ∧ file_count u' ≤ file_count (user c)
        ∧ (Forall (λ i, 0 ≤ FileRecord.size i) own →
           used_bytes u' ≤ used_bytes (user c)).
Proof.
  intros uid Hown Hstored.
  destruct (postDeleteFiles_users c files own Hown) as [Husers _]. fold uid in Husers.
  exists (User.with_files (user c) (kept files own)).
  rewrite Husers, lookup_alter_eq, Hstored. split; [done|].
  destruct (user c) as [id priv fs]. simpl in Hown. subst fs.
  unfold User.with_files. simpl. split.
  - rewrite !file_count_Some. unfold kept.
    pose proof (length_filter (λ i, FileRecord.name i ∉ files) own). lia.
  - intros Hsizes. unfold used_bytes. simpl. by apply Math_sum_kept_le.
Qed.

(** X13. A delete request by a principal whose [_files] is undefined
    fails with a [TypeError] and leaves the identity store as it was,
    but only after the deletion has been issued to the storage engine:
    the store is in the state that [storage.del] left. *)
Theorem delete_absent_list c (files : list string) :
  User._files (user c) = None →
  let uid := User._id (user c) in
  let out := postDeleteFiles files c in
  out.1 = Throw TypeError
  ∧ users out.2 = users c
  ∧ user out.2 = user c
  ∧ response out.2 = response c
  ∧ store out.2 = (storage_del (delete_paths uid files) uid (store c)).2.
Proof.
  intros Hfiles uid out. unfold out.
  rewrite postDeleteFiles_outcome. unfold delete_outcome. fold uid.
  rewrite Hfiles. by destruct (storage_del _ _ _) as [deleted s'].
Qed.

(** X14. A delete request keeps the names of the ledger pairwise
    distinct and free of slashes and double dots, and no record of the
    ledger it writes has one of the deleted names. *)
Theorem delete_keeps_names c (files : list string) own :
  let uid := User._id (user c) in
  User._files (user c) = Some own →
  users c !! uid = Some (user c) →
  ∃ own', ledger uid (postDeleteFiles files c).2 = Some own'
          ∧ (NoDup (names own) → NoDup (names own'))
          ∧ (Forall safe_name (names own) → Forall safe_name (names own'))
          ∧ (∀ t, t ∈ files → t ∉ names own').
Proof.
  intros uid Hown Hstored.
  destruct (postDeleteFiles_users c files own Hown) as [Husers _]. fold uid in Husers.
  exists (kept files own). split; [|split; [|split]].
  - unfold ledger. by rewrite Husers, lookup_alter_eq, Hstored.
  - intros Hnodup. eapply sublist_NoDup; [done|]. apply names_kept_sublist.
  - rewrite !Forall_forall. intros Hsafe t Ht. apply Hsafe.
    eapply elem_of_sublist; [done|]. apply names_kept_sublist.
  - intros t Ht Hin. unfold names in Hin.
    apply list_elem_of_fmap in Hin as (i & -> & Hi).
    unfold kept in Hi. apply list_elem_of_filter in Hi as [Hnot _]. done.
Qed.

(** ** More on downloads and the file list *)

(** The decision of [FSDownloadHandler.get] and the context it ends in. *)
Lemma FSDownloadHandler_get_outcome uid filename noDisposition c :
  FSDownloadHandler_get uid filename noDisposition c =
  match users c !! uid with
  | None => (Throw (NotFoundError uid), c)
  | Some owner =>
      if bool_decide (User._id (user c) ≠ uid) && negb (User.hasPriv owner PRIV_CREATE_FILE)
      then (Throw (ForbiddenError "Access denied"), c)
      else
        let target := user_path uid filename in
        let link := storage_signDownloadLink target
                      (if noDisposition then None else Some filename) false "user"
                      (store c) in
        (Ok (),
         mkCtx (user c) (request_file c)
           (Response.set_redirect (RedirectTo link)
              (Response.addHeader "Cache-Control" "public" (response c)))
           (users c) (store c)
           (oplog c ++
              [LogEntry.mk "download.file.user" target
                 (default 0 (Meta.size <$> storage_getMeta target (store c)))]))
  end.
Proof.
  unfold FSDownloadHandler_get.
  rewrite run_bind. unfold user_getById at 1. rewrite gets_run. cbv beta iota.
  next throw_if_run.
  destruct (users c !! uid) as [owner|].
  2: { by rewrite bool_decide_eq_true_2 by done. }
  rewrite bool_decide_eq_false_2 by done.
  next @deref_run. next @gets_run. next throw_if_run.
  destruct (_ && _); [done|].
  unfold storage_getMeta_, oplog_log, storage_signDownloadLink_. run. reflexivity.
Qed.

(** X15. A refused download changes nothing and logs nothing.  A granted
    download writes exactly one entry to the operation log, with the
    object path and the size that the storage engine reports, or 0 for an
    object it does not know; it adds the cache header, and leaves the
    identity store and the storage engine as they were. *)
Theorem download_audit uid filename noDisposition c :
  let target := user_path uid filename in
  let out := FSDownloadHandler_get uid filename noDisposition c in
  (∀ e, out.1 = Throw e → out.2 = c)
  ∧ (∀ owner,
       users c !! uid = Some owner →
       User._id (user c) = uid ∨ User.hasPriv owner PRIV_CREATE_FILE = true →
       oplog out.2 = oplog c ++
         [LogEntry.mk "download.file.user" target
            (default 0 (Meta.size <$> storage_getMeta target (store c)))]
       ∧ Response.headers (response out.2)
         = Response.headers (response c) ++ [("Cache-Control", "public")]
       ∧ users out.2 = users c
       ∧ store out.2 = store c
       ∧ user out.2 = user c).
Proof.
  intros target out. unfold out. rewrite FSDownloadHandler_get_outcome.
  destruct (users c !! uid) as [o|]; simpl.
  2: { split; [done|]. by intros owner [=]. }
  destruct (bool_decide (User._id (user c) ≠ uid) && negb (User.hasPriv o PRIV_CREATE_FILE))
    eqn:Hdenied; simpl.
  - split; [done|]. intros owner [= <-] Hgranted.
    apply andb_true_iff in Hdenied as [Hne Hpriv].
    apply bool_decide_eq_true in Hne. apply negb_true_iff in Hpriv.
    destruct Hgranted; [done|congruence].
  - split; [done|]. by intros owner [= <-] _.
Qed.

(** X20. The privileges of the requester play no part in a download:
    the same request by a principal with the same id and any other
    privileges has the same outcome, so that holding every privilege
    does not open the files of another principal. *)
Theorem download_ignores_requester_privileges uid filename noDisposition c priv' :
  let c' := set_user (User.mk (User._id (user c)) priv' (User._files (user c))) c in
  (FSDownloadHandler_get uid filename noDisposition c').1
  = (FSDownloadHandler_get uid filename noDisposition c).1.
Proof.
  intros c'. unfold c'. rewrite !FSDownloadHandler_get_outcome. simpl.
  destruct (users c !! uid) as [owner|]; [|done].
  by destruct (_ && _).
Qed.

(** X16. Viewing the file list is read-only: whatever the outcome, the
    principal, the identity store, the storage engine and the operation
    log are untouched, and a refused request leaves the response alone.
    A request that is let through lists [sortFiles] of the principal's
    files: as the body of the page [home_files.html], or for a partial
    reload as one rendered fragment with an empty template. *)
Theorem files_view_read_only pjax c :
  let out := FilesHandler_get pjax c in
  let body :=
    BodyFiles (sortFiles (User._files (user c))) (url_fs_download (User._id (user c))) in
  user out.2 = user c ∧ users out.2 = users c
  ∧ store out.2 = store c ∧ oplog out.2 = oplog c
  ∧ (∀ e, out.1 = Throw e → out.2 = c)
  ∧ (out.1 = Ok () →
     Response.template (response out.2)
       = Some (if pjax then EmptyString else "home_files.html")
     ∧ Response.body (response out.2)
       = (if pjax then BodyFragments [renderHTML "partials/files.html" body] else body)).
Proof.
  intros out body. unfold out, body, FilesHandler_get, checkPriv. run. simpl.
  destruct (User._files (user c)) as [[|i l]|]; simpl;
    try destruct (User.hasPriv (user c) PRIV_CREATE_FILE); simpl;
    by destruct pjax.
Qed.

(** ** More on the signed link *)

Lemma chars_app (a b : string) : chars (a +:+ b) = chars a ++ chars b.
Proof.
  unfold chars. induction a as [|x a IH]; [done|].
  rewrite app_String. simpl. by rewrite IH.
Qed.

Lemma chars_inj (a b : string) : chars a = chars b → a = b.
Proof.
  unfold chars. intros Heq.
  by rewrite <- (String.string_of_list_ascii_of_string a), Heq,
    String.string_of_list_ascii_of_string.
Qed.

(** The decimal digits of a number hold no slash. *)
Lemma pretty_N_go_no_slash (x : N) (s : string) :
  slash ∉ chars s → slash ∉ chars (pretty_N_go x s).
Proof.
  revert s. induction (N.lt_wf_0 x) as [x _ IH]; intros s Hs.
  assert (x = 0 ∨ 0 < x)%N as [->|Hpos] by lia.
  - by rewrite pretty_N_go_0.
  - rewrite pretty_N_go_step by done. apply IH.
    { by apply N.div_lt. }
    unfold chars in *. simpl. rewrite not_elem_of_cons. split; [|done].
    unfold pretty_N_char. repeat case_match; by compute.
Qed.

Lemma pretty_N_no_slash (x : N) : slash ∉ chars (pretty x).
Proof.
  unfold pretty, pretty_N. case_decide.
  - unfold chars. simpl. rewrite not_elem_of_cons. split; [by compute|].
    apply not_elem_of_nil.
  - apply pretty_N_go_no_slash. unfold chars. simpl. apply not_elem_of_nil.
Qed.

(** A list is split in one way only at its last slash. *)
Lemma split_at_last_slash (a a' d d' : list Ascii.ascii) :
  slash ∉ d → slash ∉ d' →
  a ++ slash :: d = a' ++ slash :: d' →
  a = a' ∧ d = d'.
Proof.
  intros Hd Hd'. revert a'. induction a as [|x a IH]; intros [|x' a'] Heq; simpl in Heq.
  - by injection Heq.
  - injection Heq as _ ->. exfalso. apply Hd. apply elem_of_app. right. by left.
  - injection Heq as _ <-. exfalso. apply Hd'. apply elem_of_app. right. by left.
  - injection Heq as -> Heq. by destruct (IH a' Heq) as [-> ->].
Qed.

(** The hashed string determines the target and the expiry. *)
Lemma link_payload_inj target expire target' expire' :
  link_payload target expire = link_payload target' expire' →
  target = target' ∧ expire = expire'.
Proof.
  unfold link_payload. intros Heq. apply (f_equal chars) in Heq.
  rewrite !chars_app in Heq.
  change (chars "/") with [slash] in Heq.
  rewrite !(app_assoc (chars _) [slash] (_ ++ _)) in Heq.
  rewrite !(app_assoc _ (chars (pretty _)) (_ ++ _)) in Heq.
  apply app_inv_tail in Heq.
  rewrite <- !app_assoc in Heq. simpl in Heq.
  apply split_at_last_slash in Heq as [Ht He]; [|apply pretty_N_no_slash..].
  split; [by apply chars_inj|]. by apply (inj pretty), chars_inj.
Qed.

(** X17. The fingerprint binds the target and the expiry: the strings
    hashed for two different pairs of target and expiry differ, so a
    fingerprint issued for one pair is refused for every other pair,
    unless [md5] maps the two different strings to the same digest. *)
Theorem link_bound_to_target_and_expiry now target expire target' expire' filename c :
  (target', expire') ≠ (target, expire) →
  link_payload target' expire' ≠ link_payload target expire
  ∧ (md5 (link_payload target' expire') ≠ md5 (link_payload target expire) →
     StorageHandler_get now target' filename expire' (expected target expire) c =
       (Throw (ForbiddenError
          (if bool_decide (Z.of_N expire' < now)
           then "Link expired" else "Invalid secret")), c)).
Proof.
  intros Hother. split.
  - intros Heq. apply link_payload_inj in Heq as [-> ->]. done.
  - intros Hdigest. unfold StorageHandler_get. run.
    case_bool_decide; [done|]. simpl.
    rewrite bool_decide_eq_true_2; [done|].
    intros Heq. apply Hdigest. symmetry. exact Heq.
Qed.

(** [endsWith s suffix] holds exactly when [s] ends in [suffix]. *)
Lemma substring_all (s : string) : String.substring 0 (String.length s) s = s.
Proof. induction s as [|x s IH]; [done|]. simpl. by rewrite IH. Qed.

Lemma substring_skip (a b : string) :
  String.substring (String.length a) (String.length b) (a +:+ b) = b.
Proof.
  induction a as [|x a IH]; [apply substring_all|].
  rewrite app_String. simpl. apply IH.
Qed.

Lemma substring_split (n : nat) (s : string) :
  (n ≤ String.length s)%nat →
  s = String.substring 0 n s +:+ String.substring n (String.length s - n) s.
Proof.
  revert n. induction s as [|x s IH]; intros [|n] Hn; simpl in *; try lia.
  - done.
  - by rewrite app_EmptyString, substring_all.
  - rewrite app_String. f_equal. apply IH. lia.
Qed.

Lemma length_app_string (a b : string) :
  String.length (a +:+ b) = (String.length a + String.length b)%nat.
Proof. induction a as [|x a IH]; [done|]. rewrite app_String. simpl. by rewrite IH. Qed.

Lemma endsWith_suffix (s suffix : string) :
  endsWith s suffix = true ↔ ∃ before, s = before +:+ suffix.
Proof.
  unfold endsWith. rewrite andb_true_iff, Nat.leb_le, String.eqb_eq. split.
  - intros [Hlen Hsub].
    exists (String.substring 0 (String.length s - String.length suffix) s).
    etrans; [apply (substring_split (String.length s - String.length suffix) s); lia|].
    f_equal.
    replace (String.length s - (String.length s - String.length suffix))%nat
      with (String.length suffix) by lia.
    exact Hsub.
  - intros [before ->]. rewrite length_app_string. split; [lia|].
    replace (String.length before + String.length suffix - String.length suffix)%nat
      with (String.length before) by lia.
    apply substring_skip.
Qed.

(** X18. A link that passes both checks is answered with the bytes of
    the object.  The content type is always set, and never empty when
    the lookup by name gives none: a target that ends in [.out] or
    [.ans] is plain text whatever the lookup says, any other target has
    the type found for its name, or the binary type.  The disposition
    header is written only for a non-empty [filename].  When the storage
    engine has no such object its error is passed on and the response is
    untouched. *)
Theorem link_served now target filename expire c :
  ¬ Z.of_N expire < now →
  let out := StorageHandler_get now target filename expire (expected target expire) c in
  match storage_get target (store c) with
  | Throw e => out = (Throw e, c)
  | Ok content =>
      out.1 = Ok ()
      ∧ Response.body (response out.2) = BodyBytes content
      ∧ (∃ type, Response.type (response out.2) = Some type
           ∧ ((∃ before, target = before +:+ ".out" ∨ target = before +:+ ".ans") →
              type = "text/plain")
           ∧ ((∀ before, target ≠ before +:+ ".out" ∧ target ≠ before +:+ ".ans") →
              type = or_else (lookup target) "application/octet-stream"
              ∧ truthy type = true))
      ∧ Response.disposition (response out.2)
        = (if truthy filename
           then Some ("attachment; filename=" +:+ dquote
                      +:+ encodeRFC5987ValueChars filename +:+ dquote)
           else Response.disposition (response c))
      ∧ users out.2 = users c ∧ store out.2 = store c ∧ oplog out.2 = oplog c
  end.
Proof.
  intros Hlive out.
  assert (out = StorageHandler_serve target filename c) as ->.
  { unfold out, StorageHandler_get. run.
    rewrite bool_decide_eq_false_2 by done. simpl.
    by rewrite bool_decide_eq_false_2 by auto. }
  unfold StorageHandler_serve, storage_get_. run.
  destruct (storage_get target (store c)) as [content|e]; [|done].
  assert (endsWith target ".out" || endsWith target ".ans" = true
          ↔ ∃ before, target = before +:+ ".out" ∨ target = before +:+ ".ans") as Hends.
  { rewrite orb_true_iff, !endsWith_suffix. split.
    - intros [[before ?]|[before ?]]; exists before; auto.
    - intros [before [?|?]]; [left|right]; by exists before. }
  destruct (truthy filename); unfold modify; simpl.
  all: split; [done|]; split; [done|]; split; [|done].
  all: eexists; split; [done|]; split.
  all: try (intros Hplain; apply Hends in Hplain; by rewrite Hplain).
  all: intros Hother;
    destruct (endsWith target ".out" || endsWith target ".ans") eqn:Hb;
    [ exfalso; destruct (proj1 Hends eq_refl) as [before Hb'];
      destruct (Hother before) as [Hout Hans]; by destruct Hb'
    | split; [done|]; by apply or_else_truthy ].
Qed.

End Properties.

(** ** The properties on the sample collaborators *)

Lemma link_fingerprint_check_witness :
  @StorageHandler_get (sample_env 2 1000 0) _ (memory_storage 0)
    100 "user/7/a.txt" "a.txt" 200%N "md5:user/7/a.txt/200/server-secret" link_ctx
  = @StorageHandler_serve (sample_env 2 1000 0) _ (memory_storage 0)
      "user/7/a.txt" "a.txt" link_ctx
  ∧ (@StorageHandler_get (sample_env 2 1000 0) _ (memory_storage 0)
      100 "user/7/a.txt" "a.txt" 200%N "md5:user/7/a.txt/200/server-secret" link_ctx).1
    = Ok ()
  ∧ @StorageHandler_get (sample_env 2 1000 0) _ (memory_storage 0)
      100 "user/7/a.txt" "a.txt" 200%N "not-the-fingerprint" link_ctx
    = (Throw (ForbiddenError "Invalid secret"), link_ctx).
Proof.
  destruct (@link_fingerprint_check (sample_env 2 1000 0) _ (memory_storage 0)
              100 "user/7/a.txt" "a.txt" 200%N link_ctx) as [Hpass Hreject].
  split; [exact Hpass|]. split.
  - etrans; [exact (f_equal fst Hpass)|]. vm_compute. reflexivity.
  - apply Hreject. vm_compute. discriminate.
Defined.

Lemma expired_link_rejected_witness :
  @StorageHandler_get (sample_env 2 1000 0) _ (memory_storage 0)
    300 "user/7/a.txt" "a.txt" 200%N "md5:user/7/a.txt/200/server-secret" link_ctx
  = (Throw (ForbiddenError "Link expired"), link_ctx).
Proof.
  apply (proj1 (@expired_link_rejected (sample_env 2 1000 0) _ (memory_storage 0)
                  300 "user/7/a.txt" "a.txt" 200%N "not-the-fingerprint" link_ctx)).
  vm_compute. reflexivity.
Defined.

(** C3 as stated fails: with 400 bytes stored and a limit of 1000 bytes,
    an upload of 600 bytes brings the aggregate to exactly the limit and
    is rejected with the size quota error. *)
Lemma upload_to_byte_limit_fails :
  User.hasPriv (P1 [sample_record "a.txt" 400]) PRIV_UNLIMITED_QUOTA = false
  ∧ used_bytes (P1 [sample_record "a.txt" 400]) + 600
    = @system_get (sample_env 10 1000 600) "limit.user_files_size"
  ∧ @postUploadFile (sample_env 10 1000 600) _ (memory_storage 600)
      (Some "b.txt") rnd16 (upload_ctx [sample_record "a.txt" 400] "b.txt")
    = (Throw (ForbiddenError "File size limit exceeded."),
       upload_ctx [sample_record "a.txt" 400] "b.txt").
Proof. repeat split; vm_compute; reflexivity. Qed.

Lemma upload_size_boundary_witness :
  @postUploadFile (sample_env 10 1000 600) _ (memory_storage 600)
      (Some "b.txt") rnd16 (upload_ctx [sample_record "a.txt" 400] "b.txt")
    = (Throw (ForbiddenError "File size limit exceeded."),
       upload_ctx [sample_record "a.txt" 400] "b.txt")
  ∧ (@postUploadFile (sample_env 10 1000 599) _ (memory_storage 599)
      (Some "b.txt") rnd16 (upload_ctx [sample_record "a.txt" 400] "b.txt")).1
    = Ok ().
Proof.
  split.
  - apply (proj1 (@upload_size_boundary (sample_env 10 1000 600) _ (memory_storage 600)
       (upload_ctx [sample_record "a.txt" 400] "b.txt") (Some "b.txt") rnd16
       (sample_file "b.txt") 600
       eq_refl eq_refl ltac:(vm_compute; reflexivity) eq_refl eq_refl)).
    vm_compute. discriminate.
  - erewrite (proj2 (@upload_size_boundary (sample_env 10 1000 599) _ (memory_storage 599)
       (upload_ctx [sample_record "a.txt" 400] "b.txt") (Some "b.txt") rnd16
       (sample_file "b.txt") 599
       eq_refl eq_refl ltac:(vm_compute; reflexivity) eq_refl eq_refl)
       ltac:(vm_compute; reflexivity)
       [sample_record "a.txt" 400] (Meta.mk 599 0 "etag")
       {[ "user/7/b.txt" := Meta.mk 599 0 "etag" ]}
       eq_refl eq_refl eq_refl).
    + reflexivity.
    + intros i Hi%list_elem_of_singleton. subst i. vm_compute. discriminate.
    + vm_compute. reflexivity.
    + vm_compute. reflexivity.
Defined.

(** C4 as stated fails: the name [../b.txt] contains two dots, and the
    upload of 700 bytes on top of 400 with a limit of 1000 is rejected by
    the size quota check, which comes first. *)
Lemma bad_filename_over_quota :
  includes ".." "../b.txt" = true
  ∧ @postUploadFile (sample_env 10 1000 700) _ (memory_storage 700)
      (Some "../b.txt") rnd16 (upload_ctx [sample_record "a.txt" 400] "b.txt")
    = (Throw (ForbiddenError "File size limit exceeded."),
       upload_ctx [sample_record "a.txt" 400] "b.txt").
Proof. split; vm_compute; reflexivity. Qed.

Lemma upload_bad_filename_witness :
  @postUploadFile (sample_env 10 1000 100) _ (memory_storage 100)
      (Some "../b.txt") rnd16 (upload_ctx [sample_record "a.txt" 400] "b.txt")
    = (Throw (ValidationError "filename" (Some "Bad filename")),
       upload_ctx [sample_record "a.txt" 400] "b.txt")
  ∧ @postUploadFile (sample_env 10 1000 700) _ (memory_storage 700)
      (Some "../b.txt") rnd16 (upload_ctx [sample_record "a.txt" 400] "b.txt")
    = (Throw (ForbiddenError "File size limit exceeded."),
       upload_ctx [sample_record "a.txt" 400] "b.txt")
  ∧ @postUploadFile (sample_env 1 1000 100) _ (memory_storage 100)
      (Some "../b.txt") rnd16 (upload_ctx [sample_record "a.txt" 400] "b.txt")
    = (Throw (ForbiddenError "File limit exceeded."),
       upload_ctx [sample_record "a.txt" 400] "b.txt").
Proof.
  assert (∀ file : File.t,
            request_file (upload_ctx [sample_record "a.txt" 400] "b.txt") = Some file →
            includes "/" (upload_name (Some "../b.txt") file rnd16)
            || includes ".." (upload_name (Some "../b.txt") file rnd16) = true) as Hbad.
  { intros file _. reflexivity. }
  split; [|split].
  - exact (proj1 (@upload_bad_filename (sample_env 10 1000 100) _ (memory_storage 100)
       (upload_ctx [sample_record "a.txt" 400] "b.txt") (Some "../b.txt") rnd16 Hbad)).
  - exact (proj1 (@upload_bad_filename (sample_env 10 1000 700) _ (memory_storage 700)
       (upload_ctx [sample_record "a.txt" 400] "b.txt") (Some "../b.txt") rnd16 Hbad)).
  - exact (proj1 (@upload_bad_filename (sample_env 1 1000 100) _ (memory_storage 100)
       (upload_ctx [sample_record "a.txt" 400] "b.txt") (Some "../b.txt") rnd16 Hbad)).
Defined.

Lemma upload_count_limit_witness :
  @postUploadFile (sample_env 2 1000 0) _ (memory_storage 0)
      (Some "c.txt") rnd16
      (upload_ctx [sample_record "a.txt" 400; sample_record "b.txt" 400] "c.txt")
    = (Throw (ForbiddenError "File limit exceeded."),
       upload_ctx [sample_record "a.txt" 400; sample_record "b.txt" 400] "c.txt").
Proof.
  apply (@upload_count_limit (sample_env 2 1000 0) _ (memory_storage 0)).
  - reflexivity.
  - reflexivity.
  - vm_compute. reflexivity.
Defined.

Lemma upload_meta_missing_witness :
  ∃ c', @postUploadFile (sample_env 2 1000 400) _ lossy_storage (Some "a.txt") rnd16
          (lossy_ctx []) = (Throw (PlainError "Upload failed"), c')
        ∧ user c' = user (lossy_ctx [])
        ∧ users c' = users (lossy_ctx [])
        ∧ store c' = ().
Proof.
  apply (@upload_meta_missing (sample_env 2 1000 400) _ lossy_storage
           (lossy_ctx []) (Some "a.txt") rnd16 (sample_file "a.txt") 400 [] ()).
  - reflexivity.
  - right. vm_compute. split; reflexivity.
  - reflexivity.
  - reflexivity.
  - reflexivity.
  - reflexivity.
  - reflexivity.
  - intros i Hi. by apply elem_of_nil in Hi.
  - reflexivity.
  - reflexivity.
Defined.

Lemma upload_then_delete_witness :
  users (@postDeleteFiles _ (memory_storage 400) ["b.txt"]
           (@postUploadFile (sample_env 2 1000 400) _ (memory_storage 400)
              (Some "b.txt") rnd16 (upload_ctx [sample_record "a.txt" 400] "b.txt")).2).2
  = users (upload_ctx [sample_record "a.txt" 400] "b.txt").
Proof.
  apply (@upload_then_delete (sample_env 2 1000 400) _ (memory_storage 400)
           (upload_ctx [sample_record "a.txt" 400] "b.txt") (Some "b.txt") rnd16
           (sample_file "b.txt")
           (@postUploadFile (sample_env 2 1000 400) _ (memory_storage 400)
              (Some "b.txt") rnd16 (upload_ctx [sample_record "a.txt" 400] "b.txt")).2).
  - vm_compute. reflexivity.
  - reflexivity.
  - vm_compute. reflexivity.
  - reflexivity.
  - vm_compute. reflexivity.
Defined.

Lemma delete_ledger_witness :
  ledger 7 (@postDeleteFiles _ lossy_storage ["a.txt"; "zz.txt"]
              (lossy_ctx [sample_record "a.txt" 400; sample_record "b.txt" 400])).2
  = Some [sample_record "b.txt" 400].
Proof.
  apply (proj1 (proj2 (@delete_ledger _ lossy_storage
     (lossy_ctx [sample_record "a.txt" 400; sample_record "b.txt" 400])
     ["a.txt"; "zz.txt"] [sample_record "a.txt" 400; sample_record "b.txt" 400]
     eq_refl))).
  vm_compute. reflexivity.
Defined.

(** ** Scenarios *)

(** Principal 7 with a quota of 2 files and 1000 bytes: [a.txt] and
    [b.txt] of 400 bytes are accepted, a third file is refused by the
    count limit, and after [a.txt] is deleted [c.txt] of 300 bytes is
    accepted. *)
Example scenario_quota :
  ledger 7 (@postUploadFile (sample_env 2 1000 400) _ (memory_storage 400)
              (Some "a.txt") rnd16 (upload_ctx [] "a.txt")).2
    = Some [sample_record "a.txt" 400]
  ∧ ledger 7 (@postUploadFile (sample_env 2 1000 400) _ (memory_storage 400)
              (Some "b.txt") rnd16 (upload_ctx [sample_record "a.txt" 400] "b.txt")).2
    = Some [sample_record "a.txt" 400; sample_record "b.txt" 400]
  ∧ (@postUploadFile (sample_env 2 1000 1) _ (memory_storage 1) (Some "c.txt") rnd16
       (upload_ctx [sample_record "a.txt" 400; sample_record "b.txt" 400] "c.txt")).1
    = Throw (ForbiddenError "File limit exceeded.")
  ∧ ledger 7 (@postDeleteFiles _ (memory_storage 0) ["a.txt"]
       (upload_ctx [sample_record "a.txt" 400; sample_record "b.txt" 400] "c.txt")).2
    = Some [sample_record "b.txt" 400]
  ∧ ledger 7 (@postUploadFile (sample_env 2 1000 300) _ (memory_storage 300)
              (Some "c.txt") rnd16 (upload_ctx [sample_record "b.txt" 400] "c.txt")).2
    = Some [sample_record "b.txt" 400; sample_record "c.txt" 300].
Proof. repeat split; vm_compute; reflexivity. Qed.

(** Without a [filename] parameter the upload is stored under the
    original name of the uploaded object. *)
Example scenario_derived_name :
  ledger 7 (@postUploadFile (sample_env 2 1000 300) _ (memory_storage 300)
              None rnd16 (upload_ctx [] "orig.txt")).2
    = Some [sample_record "orig.txt" 300].
Proof. vm_compute. reflexivity. Qed.

(** Principal 8 asks for a file of principal 7, who does not hold the
    file-creation privilege: forbidden.  Principal 7 itself is redirected
    to the signed link. *)
Example scenario_download :
  (@FSDownloadHandler_get _ (memory_storage 0) 7 "a.txt" false
     (mkCtx (User.mk 8 priv_all None) None Response.empty
        {[ 7 := User.mk 7 priv_none None ]} (∅ : gmap string Meta.t) [])).1
    = Throw (ForbiddenError "Access denied")
  ∧ Response.redirect (response
      (@FSDownloadHandler_get _ (memory_storage 0) 7 "a.txt" false
         (sample_ctx (User.mk 7 priv_none None) None (∅ : gmap string Meta.t))).2)
    = Some (RedirectTo "/storage?target=user/7/a.txt").
Proof. split; vm_compute; reflexivity. Qed.

(** A link with the recomputed fingerprint that has not expired is
    served. *)
Example scenario_link :
  expected (env := sample_env 2 1000 0) "user/7/a.txt" 200%N
    = "md5:user/7/a.txt/200/server-secret"
  ∧ Response.body (response
      (@StorageHandler_get (sample_env 2 1000 0) _ (memory_storage 0)
         100 "user/7/a.txt" "a.txt" 200%N "md5:user/7/a.txt/200/server-secret"
         link_ctx).2)
    = BodyBytes "user/7/a.txt".
Proof. split; vm_compute; reflexivity. Qed.

Example scenario_strings :
  includes ".." "a..b" = true ∧ includes ".." "a.b.c" = false
  ∧ includes "/" "dir/file" = true ∧ includes "/" "file" = false
  ∧ endsWith "1.out" ".out" = true ∧ endsWith "out" ".out" = false
  ∧ endsWith "1.outs" ".out" = false.
Proof. repeat split. Qed.

(** ** The session handlers *)

(** X19. Switching the language always sets the language of the session
    and sends the client back; it leaves the account of the session and
    the stored language of every other principal alone.  The stored
    language of the principal is overwritten exactly when it holds the
    profile privilege.  Of two switches in a row only the last one
    shows. *)
Theorem switch_language (lang1 lang2 : string) (c : SessionCtx) :
  let uid := User._id (session_user c) in
  let c' := SwitchLanguageHandler_get lang2 c in
  Session.viewLang (session c') = Some lang2
  ∧ Session.uid (session c') = Session.uid (session c)
  ∧ Response.redirect (session_response c') = Some RedirectBack
  ∧ (∀ uid', uid' ≠ uid → viewLangs c' !! uid' = viewLangs c !! uid')
  ∧ viewLangs c' !! uid
    = (if User.hasPriv (session_user c) PRIV_USER_PROFILE
       then (λ _, Some lang2) <$> viewLangs c !! uid
       else viewLangs c !! uid)
  ∧ SwitchLanguageHandler_get lang2 (SwitchLanguageHandler_get lang1 c) = c'.
Proof.
  intros uid c'. unfold c', SwitchLanguageHandler_get.
  destruct (User.hasPriv (session_user c) PRIV_USER_PROFILE) eqn:Hpriv; simpl;
    rewrite ?Hpriv; simpl; fold uid.
  - repeat split; try done.
    + intros uid' Hother. by rewrite lookup_alter_ne.
    + by rewrite lookup_alter_eq.
    + unfold user_setById_viewLang, session_back, set_session_viewLang. simpl.
      fold uid. f_equal. rewrite alter_alter_eq. by apply alter_ext.
  - repeat split; done.
Qed.

(** ** More properties on the sample collaborators *)

Lemma upload_failure_keeps_ledger_witness :
  users (@postUploadFile (sample_env 10 1000 700) _ (memory_storage 700)
           (Some "../b.txt") rnd16 (upload_ctx [sample_record "a.txt" 400] "b.txt")).2
  = users (upload_ctx [sample_record "a.txt" 400] "b.txt").
Proof.
  apply (@upload_failure_keeps_ledger (sample_env 10 1000 700) _ (memory_storage 700)
           (upload_ctx [sample_record "a.txt" 400] "b.txt") (Some "../b.txt") rnd16
           (ForbiddenError "File size limit exceeded.")).
  vm_compute. reflexivity.
Defined.


Lemma upload_keeps_names_unique_witness :
  ∃ files',
    User._files (user (@postUploadFile (sample_env 10 1000 100) _ (memory_storage 100)
        (Some "b.txt") rnd16 (upload_ctx [sample_record "a.txt" 400] "b.txt")).2)
      = Some files'
    ∧ NoDup (names files')
    ∧ (is_Some (users (upload_ctx [sample_record "a.txt" 400] "b.txt") !! 7) →
       ledger 7 (@postUploadFile (sample_env 10 1000 100) _ (memory_storage 100)
        (Some "b.txt") rnd16 (upload_ctx [sample_record "a.txt" 400] "b.txt")).2
       = Some files').
Proof.
  apply (@upload_keeps_names_unique (sample_env 10 1000 100) _ (memory_storage 100)
           (upload_ctx [sample_record "a.txt" 400] "b.txt") (Some "b.txt") rnd16 _
           [sample_record "a.txt" 400]).
  - reflexivity.
  - apply NoDup_singleton.
  - vm_compute. reflexivity.
Defined.

Lemma upload_within_quota_witness :
  file_count (user (@postUploadFile (sample_env 2 1000 599) _ (memory_storage 599)
      (Some "b.txt") rnd16 (upload_ctx [sample_record "a.txt" 400] "b.txt")).2)
  ≤ @system_get (sample_env 2 1000 599) "limit.user_files".
Proof.
  apply (@upload_within_quota (sample_env 2 1000 599) _ (memory_storage 599)
           (upload_ctx [sample_record "a.txt" 400] "b.txt") (Some "b.txt") rnd16
           (sample_file "b.txt") 599).
  - reflexivity.
  - reflexivity.
  - reflexivity.
  - vm_compute. reflexivity.
Defined.

Lemma upload_unlimited_quota_witness :
  (@postUploadFile (sample_env 1 100 500) _ (memory_storage 500) (Some "d.txt") rnd16
     (P9_ctx (Some [sample_record "a.txt" 400; sample_record "b.txt" 400]))).1
  = Ok ().
Proof.
  rewrite (@upload_unlimited_quota (sample_env 1 100 500) _ (memory_storage 500)
     (P9_ctx (Some [sample_record "a.txt" 400; sample_record "b.txt" 400]))
     (Some "d.txt") rnd16 (sample_file "d.txt") 500
     [sample_record "a.txt" 400; sample_record "b.txt" 400] (Meta.mk 500 0 "etag")
     (<["user/9/d.txt" := Meta.mk 500 0 "etag"]> {[ "user/9/a.txt" := Meta.mk 1 0 "etag" ]})).
  - reflexivity.
  - reflexivity.
  - reflexivity.
  - reflexivity.
  - reflexivity.
  - split; reflexivity.
  - reflexivity.
  - intros i Hi. apply elem_of_cons in Hi as [->|Hi].
    + vm_compute. discriminate.
    + apply list_elem_of_singleton in Hi. subst i. vm_compute. discriminate.
  - vm_compute. reflexivity.
  - vm_compute. reflexivity.
Defined.

Lemma upload_existing_name_witness :
  @postUploadFile (sample_env 10 1000 100) _ (memory_storage 100) (Some "a.txt") rnd16
     (upload_ctx [sample_record "a.txt" 400] "b.txt")
  = (Throw (BadRequestError "file exists"), upload_ctx [sample_record "a.txt" 400] "b.txt").
Proof.
  apply (@upload_existing_name (sample_env 10 1000 100) _ (memory_storage 100)
     (upload_ctx [sample_record "a.txt" 400] "b.txt") (Some "a.txt") rnd16
     (sample_file "b.txt") 100 [sample_record "a.txt" 400] (sample_record "a.txt" 400)).
  - reflexivity.
  - right. vm_compute. split; reflexivity.
  - reflexivity.
  - reflexivity.
  - split; reflexivity.
  - reflexivity.
  - by left.
  - reflexivity.
Defined.

Lemma other_principals_untouched_witness :
  users (@postUploadFile (sample_env 10 1000 100) _ (memory_storage 100) (Some "c.txt")
           rnd16 (stale_ctx [] [sample_record "a.txt" 400])).2 !! 8
  = users (stale_ctx [] [sample_record "a.txt" 400]) !! 8.
Proof.
  apply (@other_principals_untouched (sample_env 10 1000 100) _ (memory_storage 100)
           (stale_ctx [] [sample_record "a.txt" 400]) (Some "c.txt") rnd16 [] 8).
  vm_compute. discriminate.
Defined.

(** The session of principal 7 saw an empty list while the identity
    store holds [a.txt]: the upload of [c.txt] writes the list of the
    session, and [a.txt] is gone from the ledger. *)
Lemma upload_overwrites_ledger_witness :
  ∃ files file meta,
    User._files (user (stale_ctx [] [sample_record "a.txt" 400])) = Some files
    ∧ request_file (stale_ctx [] [sample_record "a.txt" 400]) = Some file
    ∧ ledger 7 (@postUploadFile (sample_env 10 1000 100) _ (memory_storage 100)
        (Some "c.txt") rnd16 (stale_ctx [] [sample_record "a.txt" 400])).2
      = Some (files ++ [new_record (upload_name (Some "c.txt") file rnd16) meta]).
Proof.
  apply (@upload_overwrites_ledger (sample_env 10 1000 100) _ (memory_storage 100)
           (stale_ctx [] [sample_record "a.txt" 400]) (Some "c.txt") rnd16).
  - vm_compute. eauto.
  - vm_compute. reflexivity.
Defined.

Lemma upload_absent_list_fails_witness :
  @postUploadFile (sample_env 10 1000 100) _ (memory_storage 100) (Some "d.txt") rnd16
     (P9_ctx None)
  = (Throw TypeError, P9_ctx None).
Proof.
  apply (proj2 (@upload_absent_list_fails (sample_env 10 1000 100) _ (memory_storage 100)
     (P9_ctx None) (Some "d.txt") rnd16 eq_refl) (sample_file "d.txt") 100).
  - reflexivity.
  - by left.
  - reflexivity.
  - reflexivity.
  - split; reflexivity.
Defined.

Lemma upload_missing_file_witness :
  @postUploadFile (sample_env 10 1000 100) _ (memory_storage 100) (Some "a.txt") rnd16
     link_ctx
  = (Throw (ValidationError "file" None), link_ctx).
Proof.
  apply (@upload_missing_file (sample_env 10 1000 100) _ (memory_storage 100)).
  - reflexivity.
  - right. vm_compute. reflexivity.
  - reflexivity.
Defined.

Lemma delete_compose_witness :
  users (@postDeleteFiles _ (memory_storage 0) ["b.txt"]
           (set_user (P1 [sample_record "b.txt" 400])
              (@postDeleteFiles _ (memory_storage 0) ["a.txt"]
                 (upload_ctx [sample_record "a.txt" 400; sample_record "b.txt" 400]
                    "c.txt")).2)).2
  = users (@postDeleteFiles _ (memory_storage 0) (["a.txt"] ++ ["b.txt"])
             (upload_ctx [sample_record "a.txt" 400; sample_record "b.txt" 400] "c.txt")).2.
Proof.
  apply (proj1 (@delete_compose _ (memory_storage 0)
     (upload_ctx [sample_record "a.txt" 400; sample_record "b.txt" 400] "c.txt")
     ["a.txt"] ["b.txt"] [sample_record "a.txt" 400; sample_record "b.txt" 400]
     (set_user (P1 [sample_record "b.txt" 400])
        (@postDeleteFiles _ (memory_storage 0) ["a.txt"]
           (upload_ctx [sample_record "a.txt" 400; sample_record "b.txt" 400] "c.txt")).2)
     eq_refl eq_refl eq_refl ltac:(vm_compute; reflexivity))).
Defined.

Lemma delete_shrinks_witness :
  ∃ u', users (@postDeleteFiles _ (memory_storage 0) ["a.txt"]
                 (upload_ctx [sample_record "a.txt" 400; sample_record "b.txt" 400]
                    "c.txt")).2 !! 7 = Some u'
        ∧ file_count u' ≤ 2
        ∧ used_bytes u' ≤ 800.
Proof.
  destruct (@delete_shrinks _ (memory_storage 0)
     (upload_ctx [sample_record "a.txt" 400; sample_record "b.txt" 400] "c.txt")
     ["a.txt"] [sample_record "a.txt" 400; sample_record "b.txt" 400] eq_refl eq_refl)
    as (u' & Hu' & Hcount & Hbytes).
  exists u'. split; [exact Hu'|]. split; [exact Hcount|].
  apply Hbytes. repeat constructor; vm_compute; discriminate.
Defined.

(** The storage engine has deleted the object although the request
    failed. *)
Lemma delete_absent_list_witness :
  (@postDeleteFiles _ (memory_storage 0) ["a.txt"] (P9_ctx None)).1 = Throw TypeError
  ∧ store (@postDeleteFiles _ (memory_storage 0) ["a.txt"] (P9_ctx None)).2 !! "user/9/a.txt"
    = None
  ∧ store (P9_ctx None) !! "user/9/a.txt" = Some (Meta.mk 1 0 "etag").
Proof.
  destruct (@delete_absent_list _ (memory_storage 0) (P9_ctx None) ["a.txt"] eq_refl)
    as (Hres & _ & _ & _ & Hstore).
  split; [exact Hres|]. split; [|reflexivity].
  rewrite Hstore. vm_compute. reflexivity.
Defined.

Lemma delete_keeps_names_witness :
  ∃ own', ledger 7 (@postDeleteFiles _ (memory_storage 0) ["a.txt"]
                      (upload_ctx [sample_record "a.txt" 400; sample_record "b.txt" 400]
                         "c.txt")).2 = Some own'
          ∧ "a.txt" ∉ names own'.
Proof.
  destruct (@delete_keeps_names _ (memory_storage 0)
     (upload_ctx [sample_record "a.txt" 400; sample_record "b.txt" 400] "c.txt")
     ["a.txt"] [sample_record "a.txt" 400; sample_record "b.txt" 400] eq_refl eq_refl)
    as (own' & Hledger & _ & _ & Hgone).
  exists own'. split; [exact Hledger|]. apply Hgone. by left.
Defined.

(** Principal 7 downloads an object that the storage engine does not
    know: the request is granted and logged with size 0. *)
Lemma download_audit_witness :
  oplog (@FSDownloadHandler_get _ (memory_storage 0) 7 "gone.txt" false
           (upload_ctx [] "c.txt")).2
  = [LogEntry.mk "download.file.user" "user/7/gone.txt" 0].
Proof.
  destruct (proj2 (@download_audit _ (memory_storage 0) 7 "gone.txt" false
                     (upload_ctx [] "c.txt")) (P1 []) eq_refl (or_introl eq_refl))
    as (Hlog & _).
  rewrite Hlog. vm_compute. reflexivity.
Defined.

Lemma files_view_read_only_witness :
  Response.template (response
    (@FilesHandler_get (sample_env 2 1000 0) _ true
       (upload_ctx [sample_record "a.txt" 400] "c.txt")).2)
  = Some EmptyString.
Proof.
  apply (@files_view_read_only (sample_env 2 1000 0) _ true
           (upload_ctx [sample_record "a.txt" 400] "c.txt")).
  vm_compute. reflexivity.
Defined.

(** The fingerprint of [user/7/a.txt] is refused for [user/8/a.txt]. *)
Lemma link_bound_to_target_and_expiry_witness :
  @StorageHandler_get (sample_env 2 1000 0) _ (memory_storage 0) 100 "user/8/a.txt"
    "a.txt" 200%N (@expected (sample_env 2 1000 0) "user/7/a.txt" 200%N) link_ctx
  = (Throw (ForbiddenError "Invalid secret"), link_ctx).
Proof.
  apply (proj2 (@link_bound_to_target_and_expiry (sample_env 2 1000 0) _ (memory_storage 0)
     100 "user/7/a.txt" 200%N "user/8/a.txt" 200%N "a.txt" link_ctx
     ltac:(discriminate))).
  vm_compute. discriminate.
Defined.

Lemma link_served_witness :
  Response.body (response
    (@StorageHandler_get (sample_env 2 1000 0) _ (memory_storage 0) 100 "user/7/a.txt"
       "a.txt" 200%N (@expected (sample_env 2 1000 0) "user/7/a.txt" 200%N) link_ctx).2)
  = BodyBytes "user/7/a.txt".
Proof.
  apply (@link_served (sample_env 2 1000 0) _ (memory_storage 0) 100 "user/7/a.txt"
           "a.txt" 200%N link_ctx ltac:(vm_compute; discriminate)).
Defined.

(** A principal without the profile privilege switches the language of
    its session only. *)
Lemma switch_language_witness :
  Session.viewLang (session (SwitchLanguageHandler_get "fr" (session_ctx (P1 []))))
    = Some "fr"
  ∧ viewLangs (SwitchLanguageHandler_get "fr" (session_ctx (P1 []))) !! 7 = Some (Some "en")
  ∧ viewLangs (SwitchLanguageHandler_get "fr" (session_ctx (P9 None))) !! 9 = Some (Some "fr").
Proof.
  destruct (switch_language "de" "fr" (session_ctx (P1 []))) as (Hsession & _ & _ & _ & Hstored & _).
  destruct (switch_language "de" "fr" (session_ctx (P9 None))) as (_ & _ & _ & _ & Hstored9 & _).
  split; [exact Hsession|]. split.
  - etrans; [exact Hstored|]. vm_compute. reflexivity.
  - etrans; [exact Hstored9|]. vm_compute. reflexivity.
Defined.
